(** * TaiwanStock: the TWSE OpenAPI tabular parser ([src/twse_openapi.py])

    A shallow embedding of the class [TwseOpenApi]: the local-era date
    parser [parse_taiwanese_date], the column type inference
    [infer_column_type], the table normaliser [parse_data] and the fetch
    [get_industry_eps_stat_info], together with the part of pandas they
    call.

    Conventions.
    - A Python [str] is a [string]; each [ascii] stands for one character
      (code points below 256).
    - A Python exception is a value of [exn]; code that may raise returns
      a [result], and [try_except] is the [try ... except] statement.
    - In a column the missing values ([None], [NaN], [pd.NA], [pd.NaT])
      are one null: [None] in a cell, [VNull] as a scalar.  What
      [parse_taiwanese_date] returns keeps [None] and [NaT] apart, since
      the dtype of the column built from its results depends on it.
    - A number is the exact rational its decimal literal denotes, kept in
      lowest terms; the rounding of [float64] is not modelled.  The range
      of the 64-bit integers is: [pd.to_numeric] raises outside it. *)

From Stdlib Require Import ZArith QArith Ascii String DecimalString List Bool Lia.
From stdpp Require Import base option list strings gmap.

Local Open Scope string_scope.
Local Open Scope Z_scope.
Local Open Scope list_scope.

(** ** Exceptions *)

Inductive exn : Type :=
| ValueError
| AttributeError
| TypeError
| KeyError
| JSONDecodeError.

Inductive result (A : Type) : Type :=
| Ret (a : A)
| Raise (e : exn).
Arguments Ret {A} a.
Arguments Raise {A} e.

Definition result_bind {A B} (f : A → result B) (m : result A) : result B :=
  match m with
  | Ret a => f a
  | Raise e => Raise e
  end.

#[global] Instance result_ret : MRet result := @Ret.
#[global] Instance result_mbind : MBind result := @result_bind.

(** [try: body except handles: handler]: run [body]; an exception that
    [handles] accepts is replaced by [handler]. *)
Definition try_except {A} (body : result A) (handles : exn → bool)
    (handler : result A) : result A :=
  match body with
  | Ret a => Ret a
  | Raise e => if handles e then handler else Raise e
  end.

(** [except Exception]: every exception of [exn] is an [Exception]. *)
Definition Exception (e : exn) : bool := true.

Definition is_ValueError (e : exn) : bool :=
  match e with ValueError => true | _ => false end.

Definition is_ValueError_or_AttributeError (e : exn) : bool :=
  match e with ValueError | AttributeError => true | _ => false end.

Fixpoint mapM_result {A B} (f : A → result B) (l : list A) : result (list B) :=
  match l with
  | [] => Ret []
  | x :: l' => y ← f x; ys ← mapM_result f l'; Ret (y :: ys)
  end.

(** ** Calendar dates and [pd.Timestamp] *)

Record date : Type := mkdate { year : Z; month : Z; day : Z }.

Definition date_eqb (a b : date) : bool :=
  (year a =? year b) && (month a =? month b) && (day a =? day b).

Definition is_leap (y : Z) : bool :=
  ((y mod 4 =? 0) && negb (y mod 100 =? 0)) || (y mod 400 =? 0).

Definition days_in_month (y m : Z) : Z :=
  match m with
  | 1 | 3 | 5 | 7 | 8 | 10 | 12 => 31
  | 4 | 6 | 9 | 11 => 30
  | 2 => if is_leap y then 29 else 28
  | _ => 0
  end.

Definition valid_date (y m d : Z) : bool :=
  (1 <=? m) && (m <=? 12) && (1 <=? d) && (d <=? days_in_month y m).

(** Lexicographic order on (year, month, day). *)
Definition date_leb (a b : date) : bool :=
  (year a <? year b)
  || ((year a =? year b)
      && ((month a <? month b)
          || ((month a =? month b) && (day a <=? day b)))).

(** The first and last midnights a nanosecond [pd.Timestamp] holds:
    [Timestamp.min] is 1677-09-21 00:12:43.145224193 and [Timestamp.max]
    is 2262-04-11 23:47:16.854775807. *)
Definition Timestamp_min_date : date := mkdate 1677 9 22.
Definition Timestamp_max_date : date := mkdate 2262 4 11.

Definition in_Timestamp_bounds (d : date) : bool :=
  date_leb Timestamp_min_date d && date_leb d Timestamp_max_date.

(** ** Characters and strings *)

Definition is_digit (c : ascii) : bool :=
  let n := nat_of_ascii c in (48 <=? n)%nat && (n <=? 57)%nat.

Definition digit_val (c : ascii) : Z := Z.of_nat (nat_of_ascii c) - 48.

Definition chars (s : string) : list ascii := list_ascii_of_string s.

(** Value of a run of decimal digits, most significant first. *)
Definition digits_val (cs : list ascii) : Z :=
  fold_left (λ acc c, acc * 10 + digit_val c) cs 0.

Definition all_digits (s : string) : bool := forallb is_digit (chars s).

(** [str(n)] for an integer. *)
Definition str_of_Z (n : Z) : string :=
  match n with
  | Z0 => "0"
  | Zpos p => NilEmpty.string_of_uint (Pos.to_uint p)
  | Zneg p => "-" +:+ NilEmpty.string_of_uint (Pos.to_uint p)
  end.

(** [s[:3]] and [s[3:]]. *)
Definition py_prefix3 (s : string) : string := substring 0 3 s.
Definition py_from3 (s : string) : string :=
  substring 3 (String.length s - 3) s.

(** ** Python scalars and pandas columns *)

Inductive value : Type :=
| VStr (s : string)
| VNull
| VNum (q : Q)
| VTimestamp (d : date)
| VBool (b : bool)
| VTimedelta (ns : Z).

(** What [parse_taiwanese_date] returns: Python's [None], or the scalar
    [pd.to_datetime] gave, [NaT] or a [Timestamp]. *)
Inductive datetimelike : Type :=
| PyNone
| NaT
| Timestamp (d : date).

Definition is_PyNone (r : datetimelike) : bool :=
  match r with PyNone => true | _ => false end.

(** The date, or the null, in a cell. *)
Definition date_of (r : datetimelike) : option date :=
  match r with Timestamp d => Some d | _ => None end.

Definition Timestamp_or_NaT (d : option date) : datetimelike :=
  match d with Some d => Timestamp d | None => NaT end.

(** A column with its dtype.  The columns of a frame built from text/null
    records are [ObjectSeries]; the others are what the conversions of
    [parse_data] produce, and the bool and timedelta columns a caller's
    frame may have.  Other dtypes (period, interval, complex, the nullable
    extension dtypes) are outside this development. *)
Inductive Series : Type :=
| ObjectSeries (cells : list (option string))   (* dtype object: str or missing *)
| StringSeries (cells : list (option string))   (* dtype string *)
| NumericSeries (cells : list (option Q))       (* dtype int64 or float64 *)
| DatetimeSeries (cells : list (option date))   (* dtype datetime64[ns] *)
| BoolSeries (cells : list bool)                (* dtype bool *)
| TimedeltaSeries (cells : list (option Z))     (* dtype timedelta64[ns] *)
| CategorySeries (base : Series).               (* dtype category over [base] *)

(** ** The runtime outside this development

    What Python and pandas do on inputs outside the classes fixed below
    is left open: every theorem holds whatever these functions are. *)
Class Runtime : Type := {
  (** [int(s)] on a string that is not a run of ASCII digits (signs,
      blanks, underscores); [None] is [ValueError]. *)
  int_other : string → option Z;
  (** [pd.to_datetime(s, format="%Y%m%d")] on a string that is not eight
      ASCII digits; [None] is a parse failure, [Some None] is [NaT]. *)
  strptime_other : string → option (option date);
  (** pandas' string to float conversion on a string outside the plain
      decimal literals read below (exponents, blanks, [inf], [nan], more
      than 308 digits before the point); [None] is a parse failure,
      [Some None] is [NaN]. *)
  to_double_other : string → option (option Q);
  (** [int(s)] for such a string when pandas takes it for an integer
      literal (blanks around a plain integer); [None] when it does not. *)
  maybe_int_other : string → option Z;
  (** [str(x)] of a number, of a timestamp and of a timedelta. *)
  str_of_num : Q → string;
  str_of_timestamp : date → string;
  str_of_timedelta : Z → string;
  (** [series.apply(f)] on a category column, given what [f] returned row
      by row: pandas maps the categories, and the dtype of the result
      depends on the mapped categories being distinct and not null. *)
  Series_apply_category : Series → list datetimelike → Series
}.

(** A runtime that rejects everything outside the fixed classes. *)
Definition strict_runtime : Runtime := {|
  int_other := λ _, None;
  strptime_other := λ _, None;
  to_double_other := λ _, None;
  maybe_int_other := λ _, None;
  str_of_num := λ _, "";
  str_of_timestamp := λ _, "";
  str_of_timedelta := λ _, "";
  Series_apply_category := λ s _, s
|}.

Section Program.
Context `{!Runtime}.

(** [int(s)]. *)
Definition py_int (s : string) : result Z :=
  if negb (String.eqb s "") && all_digits s then Ret (digits_val (chars s))
  else match int_other s with
       | Some n => Ret n
       | None => Raise ValueError
       end.

(** The fields of an eight-digit [YYYYMMDD] string. *)
Definition ymd_fields (s : string) : option (Z * Z * Z) :=
  if (String.length s =? 8)%nat && all_digits s then
    Some (digits_val (chars (substring 0 4 s)),
          digits_val (chars (substring 4 2 s)),
          digits_val (chars (substring 6 2 s)))
  else None.

(** [pd.to_datetime(s, format="%Y%m%d")] on one string: [Some] of the
    timestamp (or of [NaT]), or [None] when the string does not parse or
    the date is out of the [Timestamp] bounds. *)
Definition strptime_Ymd (s : string) : option (option date) :=
  match ymd_fields s with
  | Some (y, m, d) =>
      if valid_date y m d && in_Timestamp_bounds (mkdate y m d)
      then Some (Some (mkdate y m d)) else None
  | None => strptime_other s
  end.

(** The [errors] argument of [pd.to_datetime] and [pd.to_numeric]. *)
Inductive errors_mode : Type := errors_raise | errors_coerce.

(** A conversion failure raises [ValueError] or is coerced to a null. *)
Definition on_failure {A} (errors : errors_mode) (r : option (option A)) : result (option A) :=
  match r with
  | Some x => Ret x
  | None => match errors with
            | errors_raise => Raise ValueError
            | errors_coerce => Ret None
            end
  end.

Definition isinstance_str (v : value) : bool :=
  match v with VStr _ => true | _ => false end.

(** [pd.to_datetime(s, format="%Y%m%d", errors=...)] on a scalar string:
    a [Timestamp] or [NaT]. *)
Definition to_datetime_scalar (s : string) (errors : errors_mode) : result datetimelike :=
  d ← on_failure errors (strptime_Ymd s); Ret (Timestamp_or_NaT d).

(** ** [TwseOpenApi.parse_taiwanese_date] *)

Definition parse_taiwanese_date (taiwan_date : value) : result datetimelike :=
  match taiwan_date with
  | VStr s =>
      if negb (String.length s =? 7)%nat then Ret PyNone
      else
        try_except
          (taiwan_year ← (n ← py_int (py_prefix3 s); Ret (n + 1911));
           let month_day := py_from3 s in
           let gregorian_date := str_of_Z taiwan_year +:+ month_day in
           to_datetime_scalar gregorian_date errors_coerce)
          Exception
          (Ret PyNone)
  | _ => Ret PyNone
  end.

(** ** pandas [Series] *)

Definition str_cell (c : option string) : value :=
  match c with Some s => VStr s | None => VNull end.
Definition num_cell (c : option Q) : value :=
  match c with Some q => VNum q | None => VNull end.
Definition date_cell (c : option date) : value :=
  match c with Some d => VTimestamp d | None => VNull end.
Definition timedelta_cell (c : option Z) : value :=
  match c with Some ns => VTimedelta ns | None => VNull end.

(** The values of a series, row by row. *)
Fixpoint values (s : Series) : list value :=
  match s with
  | ObjectSeries cells | StringSeries cells => map str_cell cells
  | NumericSeries cells => map num_cell cells
  | DatetimeSeries cells => map date_cell cells
  | BoolSeries cells => map VBool cells
  | TimedeltaSeries cells => map timedelta_cell cells
  | CategorySeries base => values base
  end.

(** [series.replace(to_replace, None)] / [df.replace(to_replace, pd.NA)]
    for a string [to_replace]: the cells equal to it become missing. *)
Definition replace_cell (to_replace : string) (c : option string) : option string :=
  match c with
  | Some s => if String.eqb s to_replace then None else Some s
  | None => None
  end.

Fixpoint Series_replace (to_replace : string) (s : Series) : Series :=
  match s with
  | ObjectSeries cells => ObjectSeries (map (replace_cell to_replace) cells)
  | StringSeries cells => StringSeries (map (replace_cell to_replace) cells)
  | NumericSeries cells => NumericSeries cells
  | DatetimeSeries cells => DatetimeSeries cells
  | BoolSeries cells => BoolSeries cells
  | TimedeltaSeries cells => TimedeltaSeries cells
  | CategorySeries base => CategorySeries (Series_replace to_replace base)
  end.

(** [series.str]: the accessor exists only on text columns; otherwise
    pandas raises [AttributeError] ("Can only use .str accessor with
    string values"). *)
Fixpoint Series_str (s : Series) : result (list (option string)) :=
  match s with
  | ObjectSeries cells | StringSeries cells => Ret cells
  | NumericSeries _ | DatetimeSeries _ | BoolSeries _ | TimedeltaSeries _ =>
      Raise AttributeError
  | CategorySeries base => Series_str base
  end.

(** [re.match(r"^\d{7}$", s)]: seven digits; [$] also matches before one
    final newline. *)
Definition newline : ascii := ascii_of_nat 10.

Definition match_7_digits (s : string) : bool :=
  let cs := chars s in
  forallb is_digit (take 7 cs) && (length (take 7 cs) =? 7)%nat
  && match drop 7 cs with
     | [] => true
     | [c] => Ascii.eqb c newline
     | _ => false
     end.

(** [.str.match(...)]: a missing cell stays missing. *)
Definition str_match (cells : list (option string)) : list (option bool) :=
  map (option_map match_7_digits) cells.

(** [.all()] skips missing values. *)
Definition Series_all (bs : list (option bool)) : bool :=
  forallb (λ b, match b with Some b => b | None => true end) bs.

(** [.str.replace(",", "")]. *)
Definition remove_commas (s : string) : string :=
  string_of_list_ascii (filter (λ c, c ≠ ","%char) (chars s)).

Definition str_replace_commas (cells : list (option string)) : list (option string) :=
  map (option_map remove_commas) cells.

(** The column pandas builds from the results of [series.apply(f)], for
    an [f] that returns [None], [NaT] or a [Timestamp]: an object column
    of [None] when every call returned [None], and a datetime column
    otherwise ([None] and [NaT] are [NaT] there), also when no call
    returned a [Timestamp]. *)
Definition Series_of_timestamps (rs : list datetimelike) : Series :=
  if forallb is_PyNone rs then ObjectSeries (map (λ _, None) rs)
  else DatetimeSeries (map date_of rs).

Definition Series_apply_result (s : Series) (rs : list datetimelike) : Series :=
  match s with
  | CategorySeries _ => Series_apply_category s rs
  | _ => Series_of_timestamps rs
  end.

(** [series.apply(f)]: the calls are made row by row. *)
Definition Series_apply (f : value → result datetimelike) (s : Series) : result Series :=
  rs ← mapM_result f (values s); Ret (Series_apply_result s rs).

(** ** String to number *)

Fixpoint read_digits (acc : Z) (n : nat) (cs : list ascii) : Z * nat * list ascii :=
  match cs with
  | c :: cs' =>
      if is_digit c then read_digits (acc * 10 + digit_val c) (S n) cs'
      else (acc, n, cs)
  | [] => (acc, n, [])
  end.

(** The digits, point and digits of a decimal literal, after [n] digits
    of value [acc] have been read: the mantissa and the number of
    fraction digits; at least one digit is needed in all. *)
Definition decimal_from (acc : Z) (n : nat) (cs : list ascii) : option (Z * nat) :=
  let '(ip, n1, r1) := read_digits acc n cs in
  let '(m, n2, r2) :=
    match r1 with
    | c :: r => if Ascii.eqb c "." then read_digits ip 0%nat r else (ip, 0%nat, r1)
    | [] => (ip, 0%nat, r1)
    end in
  if (n1 + n2 =? 0)%nat then None
  else match r2 with
       | [] => Some (m, n2)
       | _ => None
       end.

(** An optional sign. *)
Definition read_sign (cs : list ascii) : bool * list ascii :=
  match cs with
  | c :: cs' =>
      if Ascii.eqb c "-" then (true, cs')
      else if Ascii.eqb c "+" then (false, cs')
      else (false, cs)
  | [] => (false, cs)
  end.

(** A plain decimal literal: an optional sign, digits, an optional point
    and more digits.  The value is [mantissa / 10 ^ fraction digits] in
    lowest terms. *)
Definition parse_decimal (s : string) : option Q :=
  let '(negative, cs) := read_sign (chars s) in
  match decimal_from 0 0 cs with
  | Some (m, n2) =>
      Some (Qred ((if negative then - m else m) # Z.to_pos (10 ^ Z.of_nat n2)))
  | None => None
  end.

(** The number of digits before the point. *)
Definition integer_digits (s : string) : nat :=
  (read_digits 0 0 (read_sign (chars s)).2).1.2.

(** The literals read here.  pandas' parser keeps 17 digits and a power
    of ten, which it refuses above 308: a literal with at most 308 digits
    before the point is within the floats, and a longer one is left to
    the runtime. *)
Definition plain_decimal (s : string) : option Q :=
  if (integer_digits s <=? 308)%nat then parse_decimal s else None.

Definition to_double (s : string) : option (option Q) :=
  match plain_decimal s with
  | Some q => Some (Some q)
  | None => to_double_other s
  end.

(** A plain integer literal, an optional sign and digits, and [int] of
    it. *)
Definition parse_integer (s : string) : option Z :=
  let '(negative, cs) := read_sign (chars s) in
  match cs with
  | [] => None
  | _ :: _ =>
      if forallb is_digit cs
      then Some (if negative then - digits_val cs else digits_val cs)
      else None
  end.

(** [int(s)] when the conversion took [s] for an integer literal, one
    with no point and no exponent. *)
Definition maybe_int (s : string) : option Z :=
  match plain_decimal s with
  | Some _ => parse_integer s
  | None => maybe_int_other s
  end.

(** The integers an [int64] or [uint64] column holds. *)
Definition in_integer_range (n : Z) : bool :=
  (- 2 ^ 63 <=? n) && (n <=? 2 ^ 64 - 1).

(** [pd.to_numeric(cells, errors=...)] on text cells: a missing cell and
    the empty string are [NaN]; an integer literal outside the 64-bit
    integers raises [ValueError] ("Integer out of range.") unless errors
    are coerced, and is then kept as a float. *)
Definition to_numeric_cell (errors : errors_mode) (c : option string) : result (option Q) :=
  match c with
  | None => Ret None
  | Some s =>
      if String.eqb s "" then Ret None
      else
        x ← on_failure errors (to_double s);
        match maybe_int s, errors with
        | Some n, errors_raise =>
            if in_integer_range n then Ret x else Raise ValueError
        | _, _ => Ret x
        end
  end.

Definition to_numeric (cells : list (option string)) (errors : errors_mode)
    : result (list (option Q)) :=
  mapM_result (to_numeric_cell errors) cells.

(** [str(b)]. *)
Definition str_of_bool (b : bool) : string := if b then "True" else "False".

(** [pd.to_datetime(series, format="%Y%m%d", errors=...)] on one cell: a
    null is [NaT], a timestamp is kept, anything else is parsed as
    text. *)
Definition to_datetime_cell (errors : errors_mode) (v : value) : result (option date) :=
  match v with
  | VNull => Ret None
  | VTimestamp d => Ret (Some d)
  | VStr s => on_failure errors (strptime_Ymd s)
  | VNum q => on_failure errors (strptime_Ymd (str_of_num q))
  | VBool b => on_failure errors (strptime_Ymd (str_of_bool b))
  | VTimedelta ns => on_failure errors (strptime_Ymd (str_of_timedelta ns))
  end.

(** A bool column, or a category over bools. *)
Fixpoint is_bool_dtype (s : Series) : bool :=
  match s with
  | BoolSeries _ => true
  | CategorySeries base => is_bool_dtype base
  | _ => false
  end.

(** The dtypes [pd.to_datetime] refuses: bool, also under a category,
    and timedelta. *)
Definition refused_by_to_datetime (s : Series) : bool :=
  is_bool_dtype s || match s with TimedeltaSeries _ => true | _ => false end.

(** Such a column is refused before any cell is read, with [TypeError]
    ("dtype bool cannot be converted to datetime64[ns]"); coerced, it is
    all [NaT]. *)
Definition to_datetime (s : Series) (errors : errors_mode) : result Series :=
  if refused_by_to_datetime s then
    match errors with
    | errors_raise => Raise TypeError
    | errors_coerce => Ret (DatetimeSeries (map (λ _, None) (values s)))
    end
  else
    ds ← mapM_result (to_datetime_cell errors) (values s); Ret (DatetimeSeries ds).

(** [series.astype("category")] and [series.astype("string")]. *)
Definition astype_category (s : Series) : Series :=
  match s with
  | CategorySeries _ => s
  | _ => CategorySeries s
  end.

Fixpoint astype_string (s : Series) : Series :=
  match s with
  | ObjectSeries cells | StringSeries cells => StringSeries cells
  | NumericSeries cells => StringSeries (map (option_map str_of_num) cells)
  | DatetimeSeries cells => StringSeries (map (option_map str_of_timestamp) cells)
  | BoolSeries cells => StringSeries (map (λ b, Some (str_of_bool b)) cells)
  | TimedeltaSeries cells => StringSeries (map (option_map str_of_timedelta) cells)
  | CategorySeries base => astype_string base
  end.

(** ** [TwseOpenApi] *)

Record TwseOpenApi : Type := {
  base_url : string;
  return_raw : bool
}.

(** The defaults of [__init__]. *)
Definition TwseOpenApi_default : TwseOpenApi :=
  {| base_url := "https://openapi.twse.com.tw/v1/"; return_raw := false |}.

(** ** [TwseOpenApi.infer_column_type]

    Each test either returns a type ([Some]) or falls through ([None]). *)
Definition infer_column_type (self : TwseOpenApi) (series : Series)
    (is_taiwanese_date : bool) : result string :=
  let series := Series_replace "--" series in
  returned ←
    (if negb is_taiwanese_date then
       try_except
         (_ ← to_datetime series errors_raise; Ret (Some "date"))
         is_ValueError
         (Ret None)
     else
       strs ← Series_str series;
       if Series_all (str_match strs) then
         try_except
           (_ ← Series_apply parse_taiwanese_date series; Ret (Some "date"))
           Exception
           (Ret None)
       else Ret None);
  match returned with
  | Some col_type => Ret col_type
  | None =>
      returned ←
        try_except
          (strs ← Series_str series;
           _ ← to_numeric (str_replace_commas strs) errors_raise;
           Ret (Some "numeric"))
          is_ValueError_or_AttributeError
          (Ret None);
      match returned with
      | Some col_type => Ret col_type
      | None => Ret "categorical"
      end
  end.

(** ** Records and [pd.DataFrame] *)

(** A JSON object of the API: a dict from column name to text or null,
    in insertion order, keys distinct. *)
Definition record : Type := list (string * option string).

Definition DataFrame : Type := list (string * Series).

(** [record[col]], a missing key giving a missing value. *)
Definition record_get (col : string) (r : record) : option string :=
  match find (λ kv, String.eqb kv.1 col) r with
  | Some (_, v) => v
  | None => None
  end.

(** The keys of the records, in order of first appearance. *)
Definition add_column (cols : list string) (col : string) : list string :=
  if existsb (String.eqb col) cols then cols else (cols ++ [col])%list.

Definition record_columns (data : list record) : list string :=
  fold_left add_column (concat (map (map fst) data)) [].

Definition DataFrame_of_records (data : list record) : DataFrame :=
  map (λ col, (col, ObjectSeries (map (record_get col) data))) (record_columns data).

(** What [pd.DataFrame(data)] is given: a list of records, or a frame. *)
Inductive frame_input : Type :=
| Records (data : list record)
| Frame (df : DataFrame).

Definition pd_DataFrame (data : frame_input) : DataFrame :=
  match data with
  | Records data => DataFrame_of_records data
  | Frame df => df
  end.

Definition columns (df : DataFrame) : list string := map fst df.

(** [df.replace(to_replace, pd.NA)]. *)
Definition DataFrame_replace (to_replace : string) (df : DataFrame) : DataFrame :=
  map (λ '(col, s), (col, Series_replace to_replace s)) df.

(** [df[col]]. *)
Definition getitem (df : DataFrame) (col : string) : result Series :=
  match find (λ cs, String.eqb cs.1 col) df with
  | Some (_, s) => Ret s
  | None => Raise KeyError
  end.

(** [df[col] = s]. *)
Definition setitem (df : DataFrame) (col : string) (s : Series) : DataFrame :=
  if existsb (λ cs, String.eqb cs.1 col) df
  then map (λ cs, if String.eqb cs.1 col then (col, s) else cs) df
  else (df ++ [(col, s)])%list.

(** ** [TwseOpenApi.parse_data] *)

Section parse_data.
Variable self : TwseOpenApi.
Variables parse_dates parse_numbers parse_categories is_taiwanese_date : bool.
Variable force_column_type : gmap string string.

(** The conversion a column type selects. *)
Definition convert_series (col_type : string) (series : Series) : result Series :=
  if String.eqb col_type "date" && parse_dates then
    if is_taiwanese_date then Series_apply parse_taiwanese_date series
    else to_datetime series errors_coerce
  else if String.eqb col_type "numeric" && parse_numbers then
    strs ← Series_str series;
    nums ← to_numeric (str_replace_commas strs) errors_coerce;
    Ret (NumericSeries nums)
  else if String.eqb col_type "categorical" && parse_categories then
    Ret (astype_category series)
  else
    Ret (astype_string series).

(** The body of the loop.  The default argument of [dict.get] is
    evaluated before the lookup, so the inference runs for every column. *)
Definition parse_column (col : string) (df : DataFrame) : result DataFrame :=
  series ← getitem df col;
  inferred ← infer_column_type self series true;
  let col_type := default inferred (force_column_type !! col) in
  converted ← convert_series col_type series;
  Ret (setitem df col converted).

Fixpoint for_columns (cols : list string) (df : DataFrame) : result DataFrame :=
  match cols with
  | [] => Ret df
  | col :: cols' => df' ← parse_column col df; for_columns cols' df'
  end.

Definition parse_data (data : frame_input) : result DataFrame :=
  let df := pd_DataFrame data in
  if return_raw self then Ret df
  else
    let df := DataFrame_replace "--" df in
    for_columns (columns df) df.

End parse_data.

(** [parse_data(data, force_column_type=...)] with the default switches. *)
Definition parse_data_default (self : TwseOpenApi) (data : frame_input)
    (force_column_type : gmap string string) : result DataFrame :=
  parse_data self true true true true force_column_type data.

(** ** [TwseOpenApi.get_industry_eps_stat_info] *)

(** An HTTP response: its status and what [response.json()] gives. *)
Record Response : Type := {
  status_code : Z;
  json : result (list record)
}.

(** The world of the fetch: the server, the lines printed so far and the
    requests sent so far. *)
Record World : Type := {
  requests_get : string → Response;
  stdout : list string;
  requests_sent : list string
}.

Definition eps_force_column_type : gmap string string :=
  {[ "年度" := "categorical"; "季別" := "categorical";
     "公司代號" := "categorical"; "公司名稱" := "string" ]}.

Definition get_industry_eps_stat_info (self : TwseOpenApi) (w : World)
    : World * result (option DataFrame) :=
  let endpoint := "opendata/t187ap14_L" in
  let url := base_url self +:+ endpoint in
  let response := requests_get w url in
  let w := {| requests_get := requests_get w; stdout := stdout w;
              requests_sent := (requests_sent w ++ [url])%list |} in
  if status_code response =? 200 then
    (w, data ← json response;
        df ← parse_data_default self (Records data) eps_force_column_type;
        Ret (Some df))
  else
    ({| requests_get := requests_get w;
        stdout := (stdout w ++ ["Error " +:+ str_of_Z (status_code response)
                                 +:+ " fetching data from " +:+ url +:+ "."])%list;
        requests_sent := requests_sent w |},
     Ret None).

End Program.

(** * Properties *)

Section Properties.
Context `{!Runtime}.

(** One call of [parse_data]: its receiver, switches and override
    mapping. *)
Section parse_data_properties.
Context (self : TwseOpenApi).
Context (parse_dates parse_numbers parse_categories is_taiwanese_date : bool).
Context (force_column_type : gmap string string).

Abbreviation convert_series_ :=
  (convert_series parse_dates parse_numbers parse_categories is_taiwanese_date).
Abbreviation parse_column_ :=
  (parse_column self parse_dates parse_numbers parse_categories
                is_taiwanese_date force_column_type).
Abbreviation for_columns_ :=
  (for_columns self parse_dates parse_numbers parse_categories
               is_taiwanese_date force_column_type).
Abbreviation parse_data_ :=
  (parse_data self parse_dates parse_numbers parse_categories
              is_taiwanese_date force_column_type).

(** ** Definitions for the statements *)

(** The computation returned, it did not raise. *)
Definition is_Ret {A} (r : result A) : bool :=
  match r with Ret _ => true | Raise _ => false end.

(** What [parse_taiwanese_date] returns, and the date or null it leaves
    in a cell. *)
Definition taiwanese_date_returned (v : value) : datetimelike :=
  match parse_taiwanese_date v with
  | Ret r => r
  | Raise _ => PyNone
  end.

Definition taiwanese_date_of (v : value) : option date :=
  date_of (taiwanese_date_returned v).

(** The date test of the local-era convention: every cell that is not
    missing matches seven digits. *)
Definition looks_like_dates (cells : list (option string)) : bool :=
  Series_all (str_match cells).

(** The numeric test on one cell and on a column. *)
Definition numeric_cell_ok (c : option string) : bool :=
  is_Ret (to_numeric_cell errors_raise c).

Definition looks_numeric (cells : list (option string)) : bool :=
  forallb numeric_cell_ok (str_replace_commas cells).

(** The date test of the ISO convention. *)
Definition parses_as_dates (vs : list value) : bool :=
  forallb (λ v, is_Ret (to_datetime_cell errors_raise v)) vs.

(** The type [infer_column_type] gives a text column under the local-era
    convention. *)
Definition inferred_type (cells : list (option string)) : string :=
  let cells := map (replace_cell "--") cells in
  if looks_like_dates cells then "date"
  else if looks_numeric cells then "numeric"
  else "categorical".

(** And under the ISO convention. *)
Definition inferred_type_iso (cells : list (option string)) : string :=
  let cells := map (replace_cell "--") cells in
  if parses_as_dates (map str_cell cells) then "date"
  else if looks_numeric cells then "numeric"
  else "categorical".

(** A local-era date as the specification has it: seven ASCII digits,
    three of era year, two of month, two of day. *)
Definition seven_digits (s : string) : bool :=
  (String.length s =? 7)%nat && all_digits s.

Definition local_era_date (s : string) : date :=
  mkdate (digits_val (chars (substring 0 3 s)) + 1911)
         (digits_val (chars (substring 3 2 s)))
         (digits_val (chars (substring 5 2 s))).

Definition calendar_valid (d : date) : bool := valid_date (year d) (month d) (day d).

Definition valid_local_era_date (s : string) : bool :=
  seven_digits s && calendar_valid (local_era_date s).

(** [str(n)] is four digits of value [n]. *)
Definition year_string_ok (n : Z) : bool :=
  match chars (str_of_Z n) with
  | [a; b; c; d] =>
      is_digit a && is_digit b && is_digit c && is_digit d
      && (digits_val [a; b; c; d] =? n)
  | _ => false
  end.

(** A numeric string as the specification has it: an optional sign, then
    digits with optional thousands-separator commas, then optionally a
    point and digits; at least one digit. *)
Fixpoint numeric_tail (seen_digit seen_point : bool) (cs : list ascii) : bool :=
  match cs with
  | [] => seen_digit
  | c :: cs' =>
      if is_digit c then numeric_tail true seen_point cs'
      else if Ascii.eqb c "," then negb seen_point && numeric_tail seen_digit seen_point cs'
      else if Ascii.eqb c "." then negb seen_point && numeric_tail seen_digit true cs'
      else false
  end.

Definition numeric_string (s : string) : bool :=
  numeric_tail false false (read_sign (chars s)).2.

(** A numeric string within what pandas reads as a number, commas
    removed: at most 308 digits before the point (the floats go no
    further) and, when it is an integer literal, an integer of 64 bits,
    from -2^63 to 2^64-1. *)
Definition within_numeric_range (s : string) : bool :=
  (integer_digits (remove_commas s) <=? 308)%nat
  && match parse_integer (remove_commas s) with
     | Some n => in_integer_range n
     | None => true
     end.

Abbreviation not_comma := (λ c : ascii, c ≠ ","%char).

(** What one turn of the loop does to the column it reads. *)
Definition parse_series (col : string) (series : Series) : result Series :=
  inferred ← infer_column_type self series true;
  convert_series_ (default inferred (force_column_type !! col)) series.

Definition parse_entry (cs : string * Series) : result (string * Series) :=
  s ← parse_series cs.1 cs.2; Ret (cs.1, s).

(** The null a coerced conversion puts for a failure. *)
Definition coerced {A} (r : result (option A)) : option A :=
  match r with
  | Ret x => x
  | Raise _ => None
  end.

(** The conversion of one cell under a column type. *)
Definition convert_cell (col_type : string) (c : option string) : value :=
  if String.eqb col_type "date" && parse_dates then
    if is_taiwanese_date then date_cell (taiwanese_date_of (str_cell c))
    else date_cell (coerced (to_datetime_cell errors_coerce (str_cell c)))
  else if String.eqb col_type "numeric" && parse_numbers then
    num_cell (coerced (to_numeric_cell errors_coerce (option_map remove_commas c)))
  else str_cell c.

(** The series [convert_series] returns for a text column [s] of cells
    [cells]. *)
Definition convert_text (col_type : string) (s : Series) (cells : list (option string))
    : Series :=
  if String.eqb col_type "date" && parse_dates then
    if is_taiwanese_date then
      Series_apply_result s (map taiwanese_date_returned (map str_cell cells))
    else
      DatetimeSeries
        (map (λ v, coerced (to_datetime_cell errors_coerce v)) (map str_cell cells))
  else if String.eqb col_type "numeric" && parse_numbers then
    NumericSeries
      (map (λ c, coerced (to_numeric_cell errors_coerce c)) (str_replace_commas cells))
  else if String.eqb col_type "categorical" && parse_categories then
    astype_category s
  else
    StringSeries cells.

(** The type the loop uses for a column: the forced one if there is one,
    the inferred one otherwise. *)
Definition effective_type (col : string) (cells : list (option string)) : string :=
  default (inferred_type cells) (force_column_type !! col).

(** A column of the records, before and after the sentinel is nulled,
    and the column [parse_data] makes of it. *)
Definition raw_column (col : string) (data : list record) : list (option string) :=
  map (record_get col) data.

Definition clean_column (col : string) (data : list record) : list (option string) :=
  map (replace_cell "--") (raw_column col data).

Definition parsed_column (data : list record) (col : string) : string * Series :=
  let cells := clean_column col data in
  (col, convert_text (effective_type col cells) (ObjectSeries cells) cells).

(** The dtypes on which the text accessor works and that a second pass
    leaves alone. *)
Definition text_dtype (s : Series) : bool :=
  match s with
  | StringSeries _ | CategorySeries (ObjectSeries _) => true
  | _ => false
  end.

(** An ISO date as the second convention has it: eight ASCII digits. *)
Definition eight_digits (s : string) : bool :=
  (String.length s =? 8)%nat && all_digits s.

(** An integer written with thousands separators: digits and commas. *)
Definition digits_and_commas (s : string) : bool :=
  forallb (λ c, is_digit c || Ascii.eqb c ",") (chars s)
  && existsb is_digit (chars s).

(** A bool or timedelta column, or a category over one. *)
Fixpoint bool_or_timedelta (s : Series) : bool :=
  match s with
  | BoolSeries _ | TimedeltaSeries _ => true
  | CategorySeries base => bool_or_timedelta base
  | _ => false
  end.

(** A cell that is missing once the sentinel is nulled. *)
Definition missing_cell (c : option string) : bool :=
  match c with
  | None => true
  | Some s => String.eqb s "--"
  end.

(** ** Exceptions and traversals *)

Lemma forallb_map_eq {A B} (f : A → B) (p : B → bool) (l : list A) :
  forallb p (map f l) = forallb (λ x, p (f x)) l.
Proof. induction l as [|x l IH]; [done|]. cbn. by rewrite IH. Qed.

Lemma mapM_result_Ret {A B} (f : A → result B) (g : A → B) (l : list A) :
  (∀ x, x ∈ l → f x = Ret (g x)) → mapM_result f l = Ret (map g l).
Proof.
  induction l as [|x l IH]; intros Hf; [reflexivity|].
  cbn. rewrite (Hf x) by left. cbn.
  rewrite IH; [reflexivity|]. intros y Hy. apply Hf. by right.
Qed.

(** A traversal whose steps raise nothing but [e] raises nothing but [e],
    and it returns exactly when every step does. *)
Lemma mapM_result_cases {A B} (f : A → result B) (e : exn) (l : list A) :
  (∀ x, x ∈ l → is_Ret (f x) = true ∨ f x = Raise e) →
  if forallb (λ x, is_Ret (f x)) l
  then ∃ ys, mapM_result f l = Ret ys ∧ length ys = length l
  else mapM_result f l = Raise e.
Proof.
  induction l as [|x l IH]; intros Hf; cbn.
  - by exists [].
  - destruct (Hf x) as [Hx|Hx]; [by left| |].
    + destruct (f x) as [y|] eqn:Efx; [|discriminate]. cbn.
      specialize (IH (λ z Hz, Hf z (list_elem_of_further _ _ _ Hz))).
      destruct (forallb _ l).
      * destruct IH as (ys & -> & Hlen). exists (y :: ys). cbn. by rewrite Hlen.
      * by rewrite IH.
    + by rewrite Hx.
Qed.

(** ** [parse_taiwanese_date] *)

Lemma parse_taiwanese_date_Ret (v : value) :
  parse_taiwanese_date v = Ret (taiwanese_date_returned v).
Proof.
  unfold taiwanese_date_returned, parse_taiwanese_date.
  destruct v as [s| | | | |]; try reflexivity.
  destruct (negb _); [reflexivity|].
  unfold try_except.
  match goal with |- context [match ?b with Ret _ => _ | Raise _ => _ end] =>
    destruct b end; reflexivity.
Qed.

Lemma Series_apply_parse_taiwanese_date (s : Series) :
  Series_apply parse_taiwanese_date s
  = Ret (Series_apply_result s (map taiwanese_date_returned (values s))).
Proof.
  unfold Series_apply.
  rewrite (mapM_result_Ret _ taiwanese_date_returned); [reflexivity|].
  intros v _. apply parse_taiwanese_date_Ret.
Qed.

(** ** [infer_column_type] on text columns *)

Lemma Series_str_replace (to_replace : string) (s : Series) cells :
  Series_str s = Ret cells →
  Series_str (Series_replace to_replace s) = Ret (map (replace_cell to_replace) cells).
Proof.
  induction s as [c|c|c|c|c|c|base IH]; cbn; intros Hs; try discriminate.
  - by injection Hs as <-.
  - by injection Hs as <-.
  - by apply IH.
Qed.

Lemma values_text (s : Series) cells :
  Series_str s = Ret cells → values s = map str_cell cells.
Proof.
  induction s as [c|c|c|c|c|c|base IH]; cbn; intros Hs; try discriminate.
  - by injection Hs as <-.
  - by injection Hs as <-.
  - by apply IH.
Qed.

Lemma refused_by_to_datetime_replace (to_replace : string) (s : Series) :
  refused_by_to_datetime (Series_replace to_replace s) = refused_by_to_datetime s.
Proof.
  unfold refused_by_to_datetime. f_equal; [|by destruct s].
  induction s; cbn; done.
Qed.

Lemma refused_by_to_datetime_text (s : Series) cells :
  Series_str s = Ret cells → refused_by_to_datetime s = false.
Proof.
  unfold refused_by_to_datetime. intros Hs. apply orb_false_iff. split.
  - revert Hs. induction s; cbn; try done.
  - by destruct s.
Qed.

Lemma on_failure_raise_cases {A} (r : option (option A)) :
  is_Ret (on_failure errors_raise r) = true ∨ on_failure errors_raise r = Raise ValueError.
Proof. destruct r; [by left|by right]. Qed.

Lemma to_numeric_cell_cases (c : option string) :
  is_Ret (to_numeric_cell errors_raise c) = true
  ∨ to_numeric_cell errors_raise c = Raise ValueError.
Proof.
  destruct c as [s|]; cbn; [|by left].
  destruct (String.eqb s ""); [by left|].
  destruct (to_double s) as [x|]; cbn; [|by right].
  destruct (maybe_int s) as [n|]; [|by left].
  destruct (in_integer_range n); [by left|by right].
Qed.

Lemma to_datetime_cell_cases (v : value) :
  is_Ret (to_datetime_cell errors_raise v) = true
  ∨ to_datetime_cell errors_raise v = Raise ValueError.
Proof.
  destruct v; cbn; try (by left); apply on_failure_raise_cases.
Qed.

(** The numeric test: [Some "numeric"] or a fall through. *)
Lemma numeric_test (cells : list (option string)) :
  try_except
    (_ ← to_numeric (str_replace_commas cells) errors_raise; Ret (Some "numeric"))
    is_ValueError_or_AttributeError
    (Ret None)
  = Ret (if looks_numeric cells then Some "numeric" else None).
Proof.
  unfold to_numeric, looks_numeric, numeric_cell_ok.
  pose proof (mapM_result_cases (to_numeric_cell errors_raise) ValueError
                (str_replace_commas cells)
                (λ c _, to_numeric_cell_cases c)) as Hc.
  destruct (forallb _ _).
  - destruct Hc as (ys & -> & _). reflexivity.
  - rewrite Hc. reflexivity.
Qed.

Lemma infer_column_type_text (api : TwseOpenApi) (s : Series) cells :
  Series_str s = Ret cells →
  infer_column_type api s true = Ret (inferred_type cells).
Proof.
  intros Hs. unfold infer_column_type, inferred_type. cbn [negb].
  rewrite (Series_str_replace _ _ _ Hs). cbn -[try_except].
  change (Series_all (str_match ?c)) with (looks_like_dates c).
  destruct (looks_like_dates _).
  - rewrite Series_apply_parse_taiwanese_date. reflexivity.
  - cbn -[try_except]. rewrite numeric_test. cbn.
    by destruct (looks_numeric _).
Qed.

Lemma infer_column_type_iso_text (api : TwseOpenApi) (s : Series) cells :
  Series_str s = Ret cells →
  infer_column_type api s false = Ret (inferred_type_iso cells).
Proof.
  intros Hs. unfold infer_column_type, inferred_type_iso. cbn [negb].
  pose proof (Series_str_replace "--" _ _ Hs) as Hr.
  rewrite Hr. unfold to_datetime.
  rewrite (refused_by_to_datetime_text _ _ Hr), (values_text _ _ Hr).
  unfold parses_as_dates.
  pose proof (mapM_result_cases (to_datetime_cell errors_raise) ValueError
                (map str_cell (map (replace_cell "--") cells))
                (λ v _, to_datetime_cell_cases v)) as Hc.
  destruct (forallb _ _).
  - destruct Hc as (ys & -> & _). reflexivity.
  - rewrite Hc. cbn -[try_except]. rewrite numeric_test. cbn.
    by destruct (looks_numeric _).
Qed.

(** ** Local-era dates *)

Arguments is_digit : simpl never.
Arguments digit_val : simpl never.

Lemma digit_val_range (c : ascii) : is_digit c = true → 0 ≤ digit_val c ≤ 9.
Proof.
  unfold is_digit, digit_val. cbv zeta.
  rewrite andb_true_iff, !Nat.leb_le. lia.
Qed.

(** So it is for every year from 1911 to 2910. *)
Lemma year_strings_ok :
  forallb (λ k, year_string_ok (Z.of_nat k + 1911)) (seq 0 1000) = true.
Proof. vm_compute. reflexivity. Qed.

Lemma str_of_Z_year (e : Z) :
  0 ≤ e ≤ 999 →
  ∃ a b c d,
    str_of_Z (e + 1911) = String a (String b (String c (String d "")))
    ∧ is_digit a = true ∧ is_digit b = true ∧ is_digit c = true
    ∧ is_digit d = true ∧ digits_val [a; b; c; d] = e + 1911.
Proof.
  intros He.
  pose proof (proj1 (forallb_forall _ _) year_strings_ok (Z.to_nat e)) as Hk.
  cbv beta in Hk. rewrite Z2Nat.id in Hk by lia.
  assert (Hin : In (Z.to_nat e) (seq 0 1000)) by (apply in_seq; lia).
  specialize (Hk Hin). unfold year_string_ok in Hk.
  unfold chars in Hk.
  destruct (str_of_Z (e + 1911)) as [|a [|b [|c [|d [|? ?]]]]]; try discriminate.
  cbn [list_ascii_of_string] in Hk.
  rewrite !andb_true_iff, Z.eqb_eq in Hk.
  destruct Hk as ((((Ha & Hb) & Hc) & Hd) & Hv).
  by exists a, b, c, d.
Qed.

Lemma seven_digits_inv (s : string) :
  seven_digits s = true →
  ∃ c1 c2 c3 c4 c5 c6 c7,
    s = String c1 (String c2 (String c3 (String c4 (String c5 (String c6 (String c7 ""))))))
    ∧ Forall (λ c, is_digit c = true) [c1; c2; c3; c4; c5; c6; c7].
Proof.
  unfold seven_digits, all_digits, chars.
  rewrite andb_true_iff, Nat.eqb_eq. intros [Hlen Hd].
  destruct s as [|c1 [|c2 [|c3 [|c4 [|c5 [|c6 [|c7 [|? ?]]]]]]]]; try discriminate.
  exists c1, c2, c3, c4, c5, c6, c7. split; [reflexivity|].
  cbn [list_ascii_of_string forallb] in Hd. rewrite !andb_true_iff in Hd.
  repeat constructor; tauto.
Qed.

(** On seven digits [parse_taiwanese_date] gives the calendar date of the
    era year plus 1911, month and day, when that is a date of the
    calendar within the [Timestamp] bounds, and [NaT] otherwise. *)
Lemma parse_taiwanese_date_seven_digits (s : string) :
  seven_digits s = true →
  parse_taiwanese_date (VStr s)
  = Ret (if calendar_valid (local_era_date s) && in_Timestamp_bounds (local_era_date s)
         then Timestamp (local_era_date s) else NaT).
Proof.
  intros Hs. destruct (seven_digits_inv s Hs) as (c1&c2&c3&c4&c5&c6&c7&->&Hd).
  repeat match goal with H : Forall _ (_ :: _) |- _ => inversion H; clear H; subst end.
  assert (He : 0 ≤ digits_val [c1; c2; c3] ≤ 999).
  { unfold digits_val. cbn [fold_left].
    assert (0 ≤ digit_val c1 ≤ 9) by (by apply digit_val_range).
    assert (0 ≤ digit_val c2 ≤ 9) by (by apply digit_val_range).
    assert (0 ≤ digit_val c3 ≤ 9) by (by apply digit_val_range).
    lia. }
  destruct (str_of_Z_year _ He) as (a&b&c&d&Hy&Ha&Hb&Hc&Hdd&Hv).
  unfold parse_taiwanese_date, local_era_date, calendar_valid.
  cbn [String.length Nat.eqb negb py_prefix3 py_from3 substring Nat.sub].
  unfold py_int, all_digits, chars.
  cbn [list_ascii_of_string forallb String.eqb negb andb].
  repeat match goal with H : is_digit _ = true |- _ => rewrite H end.
  cbn [andb mbind result_mbind result_bind mret result_ret try_except].
  rewrite Hy. unfold to_datetime_scalar, strptime_Ymd, ymd_fields, all_digits, chars.
  change (String a (String b (String c (String d "")))
          +:+ String c4 (String c5 (String c6 (String c7 ""))))
    with (String a (String b (String c (String d
            (String c4 (String c5 (String c6 (String c7 "")))))))).
  cbn [String.length Nat.eqb list_ascii_of_string forallb substring andb].
  repeat match goal with H : is_digit _ = true |- _ => rewrite H end.
  cbn [andb list_ascii_of_string].
  rewrite Hv. cbn [year month day].
  by destruct (valid_date _ _ _ && in_Timestamp_bounds _).
Qed.

Lemma seven_digits_match (s : string) :
  seven_digits s = true → match_7_digits s = true.
Proof.
  intros Hs. destruct (seven_digits_inv s Hs) as (c1&c2&c3&c4&c5&c6&c7&->&Hd).
  unfold match_7_digits, chars. cbn [list_ascii_of_string take drop length Nat.eqb].
  rewrite andb_true_r, andb_true_r.
  apply forallb_forall. intros c Hc.
  by apply (proj1 (List.Forall_forall _ _) Hd).
Qed.

Lemma looks_like_dates_intro (cells : list (option string)) :
  (∀ s, Some s ∈ cells → s = "--" ∨ match_7_digits s = true) →
  looks_like_dates (map (replace_cell "--") cells) = true.
Proof.
  unfold looks_like_dates, Series_all, str_match.
  induction cells as [|c cells IH]; intros Hc; [done|].
  cbn. rewrite IH by (intros s Hs; apply Hc; by right).
  rewrite andb_true_r. destruct c as [s|]; [|done]. cbn.
  destruct (String.eqb_spec s "--") as [->|Hne]; [done|]. cbn.
  destruct (Hc s) as [?|?]; [by left|done|done].
Qed.

(** ** The date claims *)

(** C5: [parse_taiwanese_date] is total.  For every Python value it returns
    (a date or a null) and never raises; a value that is not a string, and
    a string whose length is not 7, give the null [None]; so does a string
    of length 7 whose era year [int] rejects, and one whose date
    [to_datetime] rejects gives the null [NaT]. *)
Theorem parse_taiwanese_date_total (v : value) :
  (∃ r, parse_taiwanese_date v = Ret r)
  ∧ (isinstance_str v = false → parse_taiwanese_date v = Ret PyNone)
  ∧ (∀ s, v = VStr s → String.length s ≠ 7%nat → parse_taiwanese_date v = Ret PyNone)
  ∧ (∀ s e, v = VStr s → String.length s = 7%nat →
       py_int (py_prefix3 s) = Raise e → parse_taiwanese_date v = Ret PyNone)
  ∧ (∀ s n, v = VStr s → String.length s = 7%nat →
       py_int (py_prefix3 s) = Ret n →
       strptime_Ymd (str_of_Z (n + 1911) +:+ py_from3 s) = None →
       parse_taiwanese_date v = Ret NaT).
Proof.
  split_and!.
  - eexists. apply parse_taiwanese_date_Ret.
  - by destruct v.
  - intros s -> Hlen. cbn. by apply Nat.eqb_neq in Hlen as ->.
  - intros s e -> Hlen Hint. cbn. rewrite Hlen. cbn. by rewrite Hint.
  - intros s n -> Hlen Hint Hfail. cbn. rewrite Hlen. cbn. rewrite Hint. cbn.
    unfold to_datetime_scalar. by rewrite Hfail.
Qed.

(** C6: on a column of text and null cells [infer_column_type] never
    raises, under either date convention.  A date test or numeric test
    that fails is caught and falls through: the result is "date" when the
    date test passes, otherwise "numeric" when every cell converts to a
    number, otherwise "categorical". *)
Theorem infer_column_type_never_raises (api : TwseOpenApi)
    (cells : list (option string)) (local_era : bool) :
  let clean := map (replace_cell "--") cells in
  let date_test :=
    if local_era then looks_like_dates clean
    else parses_as_dates (map str_cell clean) in
  infer_column_type api (ObjectSeries cells) local_era
  = Ret (if date_test then "date"
         else if looks_numeric clean then "numeric"
         else "categorical").
Proof.
  destruct local_era; cbv zeta.
  - by rewrite (infer_column_type_text api (ObjectSeries cells) cells).
  - by rewrite (infer_column_type_iso_text api (ObjectSeries cells) cells).
Qed.

(** C9: a column whose values are all seven digits is a date column even
    when the last four digits are no month and day; the conversion then
    gives a null, [NaT], for such a value. *)
Theorem seven_digit_column_is_date (api : TwseOpenApi) (cells : list (option string)) :
  (∀ s, Some s ∈ cells → s = "--" ∨ seven_digits s = true) →
  infer_column_type api (ObjectSeries cells) true = Ret "date"
  ∧ (∀ s, Some s ∈ cells → seven_digits s = true →
       calendar_valid (local_era_date s) = false →
       parse_taiwanese_date (VStr s) = Ret NaT).
Proof.
  intros Hc. split.
  - rewrite (infer_column_type_text api (ObjectSeries cells) cells) by done.
    unfold inferred_type. cbv zeta. rewrite looks_like_dates_intro; [done|].
    intros s Hs. destruct (Hc s Hs) as [->|H7]; [by left|right].
    by apply seven_digits_match.
  - intros s _ H7 Hbad. rewrite parse_taiwanese_date_seven_digits by done.
    by rewrite Hbad.
Qed.

(** C1, as amended: a column whose values are all valid local-era dates is
    a date column, and a value whose calendar date lies within the
    [Timestamp] bounds (so no later than 2262-04-11) is converted to that
    date: era year plus 1911, then month and day.  "1131227" is
    2024-12-27. *)
Theorem local_era_column_is_date (api : TwseOpenApi) (cells : list (option string)) :
  (∀ s, Some s ∈ cells → s = "--" ∨ valid_local_era_date s = true) →
  infer_column_type api (ObjectSeries cells) true = Ret "date"
  ∧ (∀ s, Some s ∈ cells → valid_local_era_date s = true →
       in_Timestamp_bounds (local_era_date s) = true →
       parse_taiwanese_date (VStr s) = Ret (Timestamp (local_era_date s)))
  ∧ parse_taiwanese_date (VStr "1131227") = Ret (Timestamp (mkdate 2024 12 27)).
Proof.
  intros Hc. split_and!.
  - rewrite (infer_column_type_text api (ObjectSeries cells) cells) by done.
    unfold inferred_type. cbv zeta. rewrite looks_like_dates_intro; [done|].
    intros s Hs. destruct (Hc s Hs) as [->|Hv]; [by left|right].
    apply seven_digits_match. unfold valid_local_era_date in Hv.
    by apply andb_true_iff in Hv as [? _].
  - intros s _ Hv Hb. unfold valid_local_era_date in Hv.
    apply andb_true_iff in Hv as [H7 Hcal].
    rewrite parse_taiwanese_date_seven_digits by done. by rewrite Hcal, Hb.
  - reflexivity.
Qed.

(** ** The numeric claims *)

Lemma chars_remove_commas (s : string) :
  chars (remove_commas s) = filter not_comma (chars s).
Proof. unfold remove_commas, chars. apply list_ascii_of_string_of_list_ascii. Qed.

Lemma read_digits_digit acc n c cs :
  is_digit c = true →
  read_digits acc n (c :: cs) = read_digits (acc * 10 + digit_val c) (S n) cs.
Proof. intros Hc. cbn. by rewrite Hc. Qed.

Lemma decimal_from_digit acc n c cs :
  is_digit c = true →
  decimal_from acc n (c :: cs) = decimal_from (acc * 10 + digit_val c) (S n) cs.
Proof. intros Hc. unfold decimal_from. by rewrite read_digits_digit. Qed.

(** After the point: digits only, read to the end. *)
Lemma numeric_tail_fraction (seen_digit : bool) (cs : list ascii) :
  numeric_tail seen_digit true cs = true →
  filter not_comma cs = cs
  ∧ (seen_digit = false → cs ≠ [])
  ∧ ∀ acc n, ∃ m, read_digits acc n cs = (m, (n + length cs)%nat, []).
Proof.
  revert seen_digit. induction cs as [|c cs IH]; intros sd Hnt.
  - cbn in Hnt. subst sd. split_and!; [done|done|].
    intros acc n. exists acc. cbn. by rewrite Nat.add_0_r.
  - cbn in Hnt. destruct (is_digit c) eqn:Hc.
    + destruct (IH _ Hnt) as (Hf & _ & Hr). split_and!.
      * rewrite filter_cons_True; [by rewrite Hf|].
        intros ->. by vm_compute in Hc.
      * done.
      * intros acc n. rewrite read_digits_digit by done.
        destruct (Hr (acc * 10 + digit_val c) (S n)) as (m & ->).
        exists m. cbn. by rewrite Nat.add_succ_r.
    + destruct (Ascii.eqb c ","); [done|]. by destruct (Ascii.eqb c ".").
Qed.

(** Before the point: the parser accepts what is left once the commas are
    removed. *)
Lemma numeric_tail_decimal_from (seen_digit : bool) (cs : list ascii) :
  numeric_tail seen_digit false cs = true →
  ∀ acc n, (seen_digit = true → (0 < n)%nat) → (seen_digit = false → n = 0%nat) →
  is_Some (decimal_from acc n (filter not_comma cs)).
Proof.
  revert seen_digit. induction cs as [|c cs IH]; intros sd Hnt acc n Hn Hn0.
  - cbn in Hnt. subst sd. unfold decimal_from. cbn.
    destruct (n + 0 =? 0)%nat eqn:E; [|done].
    apply Nat.eqb_eq in E. specialize (Hn eq_refl). lia.
  - cbn in Hnt. destruct (is_digit c) eqn:Hc.
    + rewrite filter_cons_True by (intros ->; by vm_compute in Hc).
      rewrite decimal_from_digit by done.
      apply (IH true); [done|lia|done].
    + destruct (Ascii.eqb_spec c ",") as [->|Hcomma].
      * cbn in Hnt. rewrite filter_cons_False by (intros Hne; by apply Hne).
        by apply (IH sd).
      * destruct (Ascii.eqb_spec c ".") as [->|_]; [|done]. cbn in Hnt.
        destruct (numeric_tail_fraction _ _ Hnt) as (Hf & Hne & Hr).
        rewrite filter_cons_True by done. rewrite Hf.
        unfold decimal_from. cbn [read_digits]. rewrite Hc. cbn.
        destruct (Hr acc 0%nat) as (m & ->). cbn.
        destruct (n + length cs =? 0)%nat eqn:E; [|done].
        apply Nat.eqb_eq in E. destruct sd.
        -- specialize (Hn eq_refl). lia.
        -- destruct cs; [by specialize (Hne eq_refl)|cbn in E; lia].
Qed.

Lemma numeric_tail_head (seen_digit seen_point : bool) (c : ascii) (cs : list ascii) :
  numeric_tail seen_digit seen_point (c :: cs) = true →
  is_digit c = true ∨ c = ","%char ∨ c = "."%char.
Proof.
  cbn. destruct (is_digit c); [by left|].
  destruct (Ascii.eqb_spec c ","); [by right; left|].
  destruct (Ascii.eqb_spec c "."); [by right; right|done].
Qed.

Lemma numeric_tail_all (seen_digit seen_point : bool) (cs : list ascii) :
  numeric_tail seen_digit seen_point cs = true →
  ∀ c, c ∈ cs → is_digit c = true ∨ c = ","%char ∨ c = "."%char.
Proof.
  revert seen_digit seen_point. induction cs as [|c0 cs IH]; intros sd sp Hnt c Hc.
  - by apply elem_of_nil in Hc.
  - apply elem_of_cons in Hc as [->|Hc]; [by eapply numeric_tail_head|].
    cbn in Hnt. destruct (is_digit c0); [by eapply IH|].
    destruct (Ascii.eqb c0 ",").
    + apply andb_true_iff in Hnt as [_ Hnt]. by eapply IH.
    + destruct (Ascii.eqb c0 "."); [|done].
      apply andb_true_iff in Hnt as [_ Hnt]. by eapply IH.
Qed.

(** A numeric string converts to a number once its commas are removed. *)
Lemma numeric_string_parses (s : string) :
  numeric_string s = true → is_Some (parse_decimal (remove_commas s)).
Proof.
  unfold numeric_string, parse_decimal. rewrite chars_remove_commas.
  intros Hnt.
  assert (Hparse : ∀ cs, numeric_tail false false cs = true →
                         is_Some (decimal_from 0 0 (filter not_comma cs))).
  { intros cs Hcs. by apply (numeric_tail_decimal_from false). }
  assert (Hdone : ∀ (negative : bool) (cs : list ascii),
            is_Some (decimal_from 0 0 cs) →
            is_Some match decimal_from 0 0 cs with
                    | Some (m, n2) =>
                        Some (Qred ((if negative then - m else m)
                                      # Z.to_pos (10 ^ Z.of_nat n2)))
                    | None => None
                    end).
  { intros negative cs [[m n2] ->]. done. }
  destruct (chars s) as [|c cs] eqn:Hcs; [done|].
  unfold read_sign in Hnt. cbn [snd] in Hnt.
  destruct (Ascii.eqb_spec c "-") as [->|Hminus].
  { cbn [snd] in Hnt. rewrite filter_cons_True by done. cbn.
    apply (Hdone true). by apply Hparse. }
  destruct (Ascii.eqb_spec c "+") as [->|Hplus].
  { cbn [snd] in Hnt. rewrite filter_cons_True by done. cbn.
    apply (Hdone false). by apply Hparse. }
  cbn [snd] in Hnt.
  assert (Hsign : read_sign (filter not_comma (c :: cs))
                  = (false, filter not_comma (c :: cs))).
  { destruct (filter not_comma (c :: cs)) as [|c0 rest] eqn:Hf; [done|].
    assert (Hin : c0 ∈ c :: cs).
    { eapply list_elem_of_filter. rewrite Hf. left. }
    pose proof (numeric_tail_all _ _ _ Hnt c0 Hin) as Hc0.
    unfold read_sign.
    destruct (Ascii.eqb_spec c0 "-") as [->|_].
    { destruct Hc0 as [Hd|[?|?]]; [by vm_compute in Hd|done|done]. }
    destruct (Ascii.eqb_spec c0 "+") as [->|_]; [|done].
    destruct Hc0 as [Hd|[?|?]]; [by vm_compute in Hd|done|done]. }
  rewrite Hsign. apply (Hdone false). by apply Hparse.
Qed.

Lemma numeric_string_cell_ok (s : string) :
  numeric_string s = true → within_numeric_range s = true →
  ∃ q, ∀ errors, to_numeric_cell errors (Some (remove_commas s)) = Ret (Some q).
Proof.
  intros Hs Hr. destruct (numeric_string_parses s Hs) as [q Hq].
  unfold within_numeric_range in Hr. apply andb_true_iff in Hr as [Hlen Hint].
  exists q. intros errors. cbn.
  destruct (String.eqb_spec (remove_commas s) "") as [E|_].
  { rewrite E in Hq. by vm_compute in Hq. }
  unfold to_double, maybe_int, plain_decimal. rewrite Hlen, Hq.
  cbn [on_failure mbind result_mbind result_bind].
  destruct (parse_integer (remove_commas s)) as [n|]; [|done].
  rewrite Hint. by destruct errors.
Qed.

Lemma looks_numeric_intro (cells : list (option string)) :
  (∀ s, Some s ∈ cells →
        s = "--" ∨ (numeric_string s = true ∧ within_numeric_range s = true)) →
  looks_numeric (map (replace_cell "--") cells) = true.
Proof.
  unfold looks_numeric, str_replace_commas.
  induction cells as [|c cells IH]; intros Hc; [done|].
  cbn. rewrite IH by (intros s Hs; apply Hc; by right).
  rewrite andb_true_r. destruct c as [s|]; [|done]. cbn [replace_cell].
  destruct (String.eqb_spec s "--") as [->|Hne]; [done|].
  destruct (Hc s) as [?|[Hs Hr]]; [by left|done|].
  unfold numeric_cell_ok. cbn [option_map].
  destruct (numeric_string_cell_ok s Hs Hr) as [q Hq]. by rewrite Hq.
Qed.

Lemma looks_like_dates_false (cells : list (option string)) (s : string) :
  Some s ∈ cells → s ≠ "--" → match_7_digits s = false →
  looks_like_dates (map (replace_cell "--") cells) = false.
Proof.
  unfold looks_like_dates, Series_all, str_match.
  induction cells as [|c cells IH]; intros Hin Hne H7.
  - by apply elem_of_nil in Hin.
  - cbn. apply elem_of_cons in Hin as [<-|Hin].
    + cbn. apply String.eqb_neq in Hne as ->. cbn. by rewrite H7.
    + rewrite IH by done. apply andb_false_r.
Qed.

(** C2, as amended: a column of numeric strings (commas allowed) and
    sentinels, each string within what pandas reads as a number (at most
    308 digits before the point and, without a point, an integer of 64
    bits), with at least one value other than the sentinel that is not
    seven digits, is a numeric column under the local-era convention.  The
    conversion removes the commas and gives each numeric string its
    number: "1,234" gives 1234, the sentinel gives a null, and the column
    ["100", "--", "200"] becomes [100, null, 200]. *)
Theorem numeric_column_is_numeric (api : TwseOpenApi) (cells : list (option string)) :
  (∀ s, Some s ∈ cells →
        s = "--" ∨ (numeric_string s = true ∧ within_numeric_range s = true)) →
  (∃ s, Some s ∈ cells ∧ s ≠ "--" ∧ match_7_digits s = false) →
  infer_column_type api (ObjectSeries cells) true = Ret "numeric"
  ∧ (∀ s, Some s ∈ cells → s ≠ "--" →
       ∃ q, to_numeric (str_replace_commas [Some s]) errors_coerce = Ret [Some q])
  ∧ to_numeric (str_replace_commas [Some "1,234"]) errors_coerce = Ret [Some 1234%Q]
  ∧ Series_replace "--" (ObjectSeries [Some "--"]) = ObjectSeries [None]
  ∧ parse_data_default TwseOpenApi_default
      (Records [[("c", Some "100")]; [("c", Some "--")]; [("c", Some "200")]]) ∅
    = Ret [("c", NumericSeries [Some 100%Q; None; Some 200%Q])].
Proof.
  intros Hc (s0 & Hin & Hne & H7). split_and!.
  - rewrite (infer_column_type_text api (ObjectSeries cells) cells) by done.
    unfold inferred_type. cbv zeta.
    rewrite (looks_like_dates_false cells s0) by done.
    by rewrite looks_numeric_intro.
  - intros s Hs Hs'. destruct (Hc s Hs) as [?|[Hnum Hr]]; [done|].
    destruct (numeric_string_cell_ok s Hnum Hr) as [q Hq].
    exists q. unfold to_numeric, str_replace_commas.
    cbn [map option_map mapM_result]. by rewrite Hq.
  - reflexivity.
  - reflexivity.
  - reflexivity.
Qed.

(** ** Frames and the column loop *)

Lemma getitem_app (done rest : DataFrame) (col : string) (s : Series) :
  col ∉ columns done → getitem (done ++ (col, s) :: rest) col = Ret s.
Proof.
  unfold getitem, columns. induction done as [|[c0 s0] done IH]; cbn; intros Hnot.
  - by rewrite String.eqb_refl.
  - destruct (String.eqb_spec c0 col) as [->|_].
    + exfalso. apply Hnot. left.
    + apply IH. intros Hin. apply Hnot. by right.
Qed.

Lemma setitem_other (df : DataFrame) (col : string) (s : Series) :
  col ∉ columns df →
  map (λ cs : string * Series, if String.eqb cs.1 col then (col, s) else cs) df = df.
Proof.
  unfold columns. induction df as [|[c0 s0] df IH]; cbn; intros Hnot; [done|].
  destruct (String.eqb_spec c0 col) as [->|_].
  - exfalso. apply Hnot. left.
  - f_equal. apply IH. intros Hin. apply Hnot. by right.
Qed.

Lemma setitem_app (done rest : DataFrame) (col : string) (s s' : Series) :
  col ∉ columns done → col ∉ columns rest →
  setitem (done ++ (col, s) :: rest) col s' = done ++ (col, s') :: rest.
Proof.
  intros Hdone Hrest. unfold setitem.
  rewrite existsb_app. cbn. rewrite String.eqb_refl, orb_true_r. cbn.
  rewrite map_app. cbn. rewrite String.eqb_refl.
  by rewrite !setitem_other.
Qed.

Lemma add_column_NoDup (cols : list string) (col : string) :
  NoDup cols → NoDup (add_column cols col).
Proof.
  intros Hnd. unfold add_column.
  destruct (existsb (String.eqb col) cols) eqn:Hex; [done|].
  apply NoDup_app. split_and!; [done| |apply NoDup_singleton].
  intros x Hx Hx'. apply list_elem_of_singleton in Hx' as ->.
  assert (existsb (String.eqb col) cols = true); [|congruence].
  apply existsb_exists. exists col. split; [by apply list_elem_of_In|].
  apply String.eqb_refl.
Qed.

Lemma record_columns_NoDup (data : list record) : NoDup (record_columns data).
Proof.
  unfold record_columns.
  assert (Hgen : ∀ keys acc, NoDup acc → NoDup (fold_left add_column keys acc)).
  { induction keys as [|k keys IH]; cbn; intros acc Hacc; [done|].
    apply IH. by apply add_column_NoDup. }
  apply Hgen. constructor.
Qed.

Lemma columns_DataFrame_of_records (data : list record) :
  columns (DataFrame_of_records data) = record_columns data.
Proof.
  unfold columns, DataFrame_of_records. rewrite map_map. cbn. apply map_id.
Qed.

Lemma columns_DataFrame_replace (to_replace : string) (df : DataFrame) :
  columns (DataFrame_replace to_replace df) = columns df.
Proof.
  unfold columns, DataFrame_replace. rewrite map_map.
  apply map_ext. by intros [c s0].
Qed.

Lemma fold_add_column_elem (keys acc : list string) (x : string) :
  x ∈ fold_left add_column keys acc ↔ x ∈ acc ∨ x ∈ keys.
Proof.
  revert acc. induction keys as [|k keys IH]; intros acc; cbn.
  - rewrite elem_of_nil. tauto.
  - rewrite IH, elem_of_cons. unfold add_column.
    destruct (existsb (String.eqb k) acc) eqn:Hex.
    + apply existsb_exists in Hex as (k' & Hk' & Heq).
      apply String.eqb_eq in Heq as <-. apply list_elem_of_In in Hk'.
      split; [tauto|]. intros [?|[->|?]]; tauto.
    + rewrite elem_of_app, list_elem_of_singleton. tauto.
Qed.

(** The columns of the frame are the keys of the records. *)
Lemma record_columns_elem (data : list record) (col : string) :
  col ∈ record_columns data ↔ ∃ r, r ∈ data ∧ col ∈ map fst r.
Proof.
  unfold record_columns. rewrite fold_add_column_elem, elem_of_nil.
  split.
  - intros [[]|Hin]. apply list_elem_of_In, in_concat in Hin as (keys & Hkeys & Hcol).
    apply in_map_iff in Hkeys as (r & <- & Hr).
    exists r. split; by apply list_elem_of_In.
  - intros (r & Hr & Hcol). right. apply list_elem_of_In, in_concat.
    exists (map fst r). split; [|by apply list_elem_of_In].
    apply in_map. by apply list_elem_of_In.
Qed.

Lemma replace_cell_idemp (to_replace : string) (c : option string) :
  replace_cell to_replace (replace_cell to_replace c) = replace_cell to_replace c.
Proof.
  destruct c as [s|]; [|done]. cbn.
  destruct (String.eqb s to_replace) eqn:E; [done|]. cbn. by rewrite E.
Qed.

Lemma Series_str_cases (s : Series) :
  (∃ cells, Series_str s = Ret cells) ∨ Series_str s = Raise AttributeError.
Proof. induction s; cbn; eauto. Qed.

Lemma Series_str_replace_Raise (to_replace : string) (s : Series) (e : exn) :
  Series_str s = Raise e → Series_str (Series_replace to_replace s) = Raise e.
Proof. induction s; cbn; try done. Qed.

Lemma mapM_result_map_id {A B} (f : B → result A) (h : A → B) (l : list A) :
  (∀ x, x ∈ l → f (h x) = Ret x) → mapM_result f (map h l) = Ret l.
Proof.
  induction l as [|x l IH]; intros Hf; [done|].
  cbn. rewrite (Hf x) by left. cbn.
  rewrite IH; [done|]. intros y Hy. apply Hf. by right.
Qed.

Lemma for_columns_app (done todo : DataFrame) :
  NoDup (columns (done ++ todo)) →
  for_columns_ (columns todo) (done ++ todo)
  = ys ← mapM_result parse_entry todo; Ret (done ++ ys).
Proof.
  revert done. induction todo as [|[col s] todo IH]; intros done Hnd.
  - cbn. by rewrite app_nil_r.
  - unfold columns in Hnd. rewrite map_app in Hnd. cbn in Hnd.
    apply NoDup_app in Hnd as (Hd & Hdisj & Ht).
    apply NoDup_cons in Ht as [Hcol Ht].
    assert (Hcd : col ∉ columns done).
    { intros Hin. apply (Hdisj col Hin). left. }
    cbn [columns map fst for_columns mapM_result].
    assert (Hentry : parse_entry (col, s) = s' ← parse_series col s; Ret (col, s'))
      by reflexivity.
    assert (Hcolumn : parse_column_ col (done ++ (col, s) :: todo)
                      = s' ← parse_series col s;
                        Ret (setitem (done ++ (col, s) :: todo) col s')).
    { unfold parse_column, parse_series. rewrite getitem_app by done.
      cbn [mbind result_mbind result_bind].
      by destruct (infer_column_type self s true). }
    rewrite Hentry, Hcolumn.
    destruct (parse_series col s) as [s'|e]; [|reflexivity].
    cbn [mbind result_mbind result_bind mret result_ret].
    rewrite setitem_app by done.
    change (done ++ (col, s') :: todo) with (done ++ [(col, s')] ++ todo).
    rewrite app_assoc. rewrite IH.
    + destruct (mapM_result parse_entry todo) as [ys|e]; [|reflexivity].
      cbn. by rewrite <- app_assoc.
    + unfold columns. rewrite !map_app. cbn.
      apply NoDup_app. split_and!.
      * apply NoDup_app. split_and!; [done| |apply NoDup_singleton].
        intros x Hx Hx'. apply list_elem_of_singleton in Hx' as ->. done.
      * intros x Hx Hx'. apply elem_of_app in Hx as [Hx|Hx].
        -- apply (Hdisj x Hx). by right.
        -- apply list_elem_of_singleton in Hx as ->. done.
      * done.
Qed.

Lemma for_columns_mapM (df : DataFrame) :
  NoDup (columns df) →
  for_columns_ (columns df) df = mapM_result parse_entry df.
Proof.
  intros Hnd. pose proof (for_columns_app [] df Hnd) as E.
  cbn [app] in E. rewrite E.
  by destruct (mapM_result parse_entry df).
Qed.

(** *** Conversions on text columns *)

Lemma on_failure_coerce {A} (r : option (option A)) :
  on_failure errors_coerce r = Ret (coerced (on_failure errors_coerce r)).
Proof. by destruct r. Qed.

Lemma to_numeric_cell_coerce (c : option string) :
  to_numeric_cell errors_coerce c = Ret (coerced (to_numeric_cell errors_coerce c)).
Proof.
  destruct c as [s|]; cbn; [|done].
  destruct (String.eqb s ""); [done|].
  destruct (to_double s) as [x|]; cbn; by destruct (maybe_int s).
Qed.

Lemma to_datetime_cell_coerce (v : value) :
  to_datetime_cell errors_coerce v = Ret (coerced (to_datetime_cell errors_coerce v)).
Proof. destruct v; cbn; try done; apply on_failure_coerce. Qed.

Lemma astype_string_text (s : Series) cells :
  Series_str s = Ret cells → astype_string s = StringSeries cells.
Proof.
  induction s as [c|c|c|c|c|c|base IH]; cbn; intros Hs; try discriminate.
  - by injection Hs as <-.
  - by injection Hs as <-.
  - by apply IH.
Qed.

Lemma convert_series_text (col_type : string) (s : Series) cells :
  Series_str s = Ret cells →
  convert_series_ col_type s = Ret (convert_text col_type s cells).
Proof.
  intros Hs. unfold convert_series, convert_text.
  destruct (String.eqb col_type "date" && parse_dates).
  { destruct is_taiwanese_date.
    - rewrite Series_apply_parse_taiwanese_date. by rewrite (values_text _ _ Hs).
    - unfold to_datetime.
      rewrite (refused_by_to_datetime_text _ _ Hs), (values_text _ _ Hs).
      rewrite (mapM_result_Ret _ (λ v, coerced (to_datetime_cell errors_coerce v)));
        [done|].
      intros v _. apply to_datetime_cell_coerce. }
  destruct (String.eqb col_type "numeric" && parse_numbers).
  { rewrite Hs. cbn [mbind result_mbind result_bind]. unfold to_numeric.
    rewrite (mapM_result_Ret _ (λ c, coerced (to_numeric_cell errors_coerce c)));
      [done|].
    intros c _. apply to_numeric_cell_coerce. }
  destruct (String.eqb col_type "categorical" && parse_categories); [done|].
  by rewrite (astype_string_text _ _ Hs).
Qed.

Lemma values_Series_of_timestamps (rs : list datetimelike) :
  values (Series_of_timestamps rs) = map (λ r, date_cell (date_of r)) rs.
Proof.
  unfold Series_of_timestamps.
  destruct (forallb is_PyNone rs) eqn:Hall; cbn; rewrite map_map; [|done].
  apply map_ext_in. intros r Hr.
  rewrite forallb_forall in Hall. specialize (Hall r Hr). by destruct r.
Qed.

Lemma values_astype_category (s : Series) : values (astype_category s) = values s.
Proof. by destruct s. Qed.

(** Conversion is cell by cell: row [i] of the result is the conversion
    of row [i]. *)
Lemma values_convert_text (col_type : string) (s : Series) cells :
  s = ObjectSeries cells →
  values (convert_text col_type s cells) = map (convert_cell col_type) cells.
Proof.
  intros ->. unfold convert_text.
  unfold convert_cell, taiwanese_date_of.
  destruct (String.eqb col_type "date" && parse_dates).
  { destruct is_taiwanese_date.
    - cbn [Series_apply_result]. by rewrite values_Series_of_timestamps, !map_map.
    - cbn. by rewrite !map_map. }
  destruct (String.eqb col_type "numeric" && parse_numbers).
  { cbn. unfold str_replace_commas. by rewrite !map_map. }
  destruct (String.eqb col_type "categorical" && parse_categories); done.
Qed.

Lemma parse_series_text (col : string) (s : Series) cells :
  Series_str s = Ret cells →
  parse_series col s = Ret (convert_text (effective_type col cells) s cells).
Proof.
  intros Hs. unfold parse_series.
  rewrite (infer_column_type_text _ _ _ Hs). cbn [mbind result_mbind result_bind].
  by apply convert_series_text.
Qed.

(** *** [parse_data] on records *)

Lemma parse_data_Records (data : list record) :
  return_raw self = false →
  parse_data_ (Records data) = Ret (map (parsed_column data) (record_columns data)).
Proof.
  intros Hraw. unfold parse_data. rewrite Hraw. cbn [pd_DataFrame].
  rewrite for_columns_mapM.
  2:{ rewrite columns_DataFrame_replace, columns_DataFrame_of_records.
      apply record_columns_NoDup. }
  unfold DataFrame_replace, DataFrame_of_records. rewrite map_map.
  cbn [Series_replace].
  rewrite (mapM_result_Ret _
             (λ cs : string * Series,
                match cs.2 with
                | ObjectSeries cells =>
                    (cs.1, convert_text (effective_type cs.1 cells) cs.2 cells)
                | _ => cs
                end)).
  - by rewrite map_map.
  - intros cs Hcs. apply list_elem_of_fmap in Hcs as (col & -> & _).
    unfold parse_entry. cbn [fst snd].
    by rewrite (parse_series_text col (ObjectSeries _) _ eq_refl).
Qed.

Lemma columns_parsed (data : list record) (cols : list string) :
  columns (map (parsed_column data) cols) = cols.
Proof. unfold columns. rewrite map_map. cbn. apply map_id. Qed.

Lemma getitem_parsed (data : list record) (cols : list string) (col : string) :
  col ∈ cols →
  getitem (map (parsed_column data) cols) col = Ret (parsed_column data col).2.
Proof.
  unfold getitem. induction cols as [|c cols IH]; intros Hin.
  - by apply elem_of_nil in Hin.
  - cbn. destruct (String.eqb_spec c col) as [->|Hne]; [done|].
    apply elem_of_cons in Hin as [->|Hin]; [done|]. by apply IH.
Qed.

(** *** The claims on [parse_data] *)

(** C3: a forced type overrides inference.  For a column that the
    override mapping contains, the column of the output is the conversion
    that the forced type selects, whatever [infer_column_type] returns; a
    numeric-looking column forced to "categorical" comes out with dtype
    category. *)
Theorem forced_type_overrides_inference (data : list record) (col col_type : string) :
  return_raw self = false →
  force_column_type !! col = Some col_type →
  col ∈ record_columns data →
  (∃ df series,
     parse_data_ (Records data) = Ret df
     ∧ getitem df col = Ret series
     ∧ convert_series_ col_type (ObjectSeries (clean_column col data)) = Ret series)
  ∧ infer_column_type TwseOpenApi_default (ObjectSeries [Some "100"]) true = Ret "numeric"
  ∧ parse_data_default TwseOpenApi_default (Records [[("a", Some "100")]])
      {[ "a" := "categorical" ]}
    = Ret [("a", CategorySeries (ObjectSeries [Some "100"]))].
Proof.
  intros Hraw Hforce Hcol. split_and!; [|reflexivity|reflexivity].
  eexists _, _. split_and!.
  - by apply parse_data_Records.
  - by apply getitem_parsed.
  - rewrite (convert_series_text _ _ (clean_column col data)) by done.
    cbn. unfold effective_type. by rewrite Hforce.
Qed.

(** C4: the output has one column per input column, each as long as the
    input has records, and row [i] of a column is the conversion, under
    the type of that column, of the value record [i] has for it. *)
Theorem parse_data_row_alignment (data : list record) :
  return_raw self = false →
  ∃ df,
    parse_data_ (Records data) = Ret df
    ∧ columns df = record_columns data
    ∧ NoDup (columns df)
    ∧ (∀ col, col ∈ columns df ↔ ∃ r, r ∈ data ∧ col ∈ map fst r)
    ∧ ∀ col series, (col, series) ∈ df →
        length (values series) = length data
        ∧ ∀ i r, data !! i = Some r →
            values series !! i
            = Some (convert_cell (effective_type col (clean_column col data))
                                 (replace_cell "--" (record_get col r))).
Proof.
  intros Hraw. eexists. split; [by apply parse_data_Records|].
  rewrite columns_parsed. split_and!.
  - done.
  - apply record_columns_NoDup.
  - apply record_columns_elem.
  - intros col series Hin.
    apply list_elem_of_fmap in Hin as (col' & Heq & _).
    unfold parsed_column in Heq. cbv zeta in Heq. injection Heq as <- ->.
    rewrite (values_convert_text _ _ (clean_column col data)) by done.
    split.
    + unfold clean_column, raw_column. by rewrite !length_map.
    + intros i r Hi. unfold clean_column, raw_column.
      rewrite !list_lookup_fmap, Hi. done.
Qed.

(** C10: with [return_raw] set, [parse_data] returns the records as they
    are: every column is the object column of the raw values, sentinel
    included, whatever the switches and the override mapping. *)
Theorem return_raw_is_verbatim (data : list record) :
  return_raw self = true →
  parse_data_ (Records data) = Ret (DataFrame_of_records data)
  ∧ columns (DataFrame_of_records data) = record_columns data
  ∧ ∀ col series, (col, series) ∈ DataFrame_of_records data →
      series = ObjectSeries (raw_column col data)
      ∧ ∀ i r, data !! i = Some r →
          values series !! i = Some (str_cell (record_get col r)).
Proof.
  intros Hraw. split_and!.
  - unfold parse_data. by rewrite Hraw.
  - apply columns_DataFrame_of_records.
  - intros col series Hin. unfold DataFrame_of_records in Hin.
    apply list_elem_of_fmap in Hin as (col' & Heq & _). injection Heq as <- ->.
    split; [done|]. intros i r Hi. cbn. unfold raw_column.
    by rewrite !list_lookup_fmap, Hi.
Qed.

(** *** Applying [parse_data] to its own output *)

Lemma text_dtype_Series_of_timestamps (rs : list datetimelike) :
  text_dtype (Series_of_timestamps rs) = false.
Proof. unfold Series_of_timestamps. by destruct (forallb _ rs). Qed.

Lemma parse_entry_parsed (data : list record) (col : string) :
  text_dtype (parsed_column data col).2 = true →
  parse_entry ((parsed_column data col).1,
               Series_replace "--" (parsed_column data col).2)
  = Ret (parsed_column data col).
Proof.
  unfold parsed_column. cbv zeta. cbn [fst snd].
  set (cells := clean_column col data).
  assert (Hclean : map (replace_cell "--") cells = cells).
  { unfold cells, clean_column. rewrite map_map.
    apply map_ext. intros c. apply replace_cell_idemp. }
  unfold convert_text at 1 2.
  destruct (String.eqb _ "date" && parse_dates) eqn:Hdate.
  { destruct is_taiwanese_date; [|done].
    cbn [Series_apply_result]. by rewrite text_dtype_Series_of_timestamps. }
  destruct (String.eqb _ "numeric" && parse_numbers) eqn:Hnum; [done|].
  destruct (String.eqb _ "categorical" && parse_categories) eqn:Hcat; intros _.
  - cbn [astype_category Series_replace]. rewrite Hclean.
    unfold parse_entry. cbn [fst snd].
    rewrite (parse_series_text col _ cells) by done.
    unfold convert_text. by rewrite Hdate, Hnum, Hcat.
  - cbn [Series_replace]. rewrite Hclean.
    unfold parse_entry. cbn [fst snd].
    rewrite (parse_series_text col _ cells) by done.
    unfold convert_text. by rewrite Hdate, Hnum, Hcat.
Qed.

(** C7, as amended: applying [parse_data] to its own output, with the
    same switches and override mapping, gives that output again when
    every column of it has dtype category or string (or when [return_raw]
    is set). *)
Theorem parse_data_idempotent_on_text (data : list record) (df : DataFrame) :
  parse_data_ (Records data) = Ret df →
  return_raw self = true ∨ (∀ col series, (col, series) ∈ df → text_dtype series = true) →
  parse_data_ (Frame df) = Ret df.
Proof.
  intros Hfirst Hdf. destruct (return_raw self) eqn:Hraw.
  { unfold parse_data. by rewrite Hraw. }
  destruct Hdf as [?|Htext]; [done|].
  rewrite parse_data_Records in Hfirst by done. injection Hfirst as <-.
  unfold parse_data. rewrite Hraw. cbn [pd_DataFrame].
  rewrite for_columns_mapM.
  2:{ rewrite columns_DataFrame_replace, columns_parsed. apply record_columns_NoDup. }
  unfold DataFrame_replace.
  apply (mapM_result_map_id parse_entry).
  intros [col series] Hin.
  pose proof (Htext col series Hin) as Ht.
  apply list_elem_of_fmap in Hin as (col' & Heq & _).
  assert (col' = col) as -> by (by injection Heq).
  assert (series = (parsed_column data col).2) as -> by (by rewrite <- Heq).
  exact (parse_entry_parsed data col Ht).
Qed.

(** A second pass over a frame with a column on which the text accessor
    is missing (a numeric or datetime column) raises [AttributeError],
    override or not. *)
Lemma parse_data_Frame_raises (df : DataFrame) (col : string) (series : Series) :
  return_raw self = false →
  NoDup (columns df) →
  (col, series) ∈ df →
  Series_str series = Raise AttributeError →
  parse_data_ (Frame df) = Raise AttributeError.
Proof.
  intros Hraw Hnd Hin Hstr. unfold parse_data. rewrite Hraw. cbn [pd_DataFrame].
  rewrite for_columns_mapM by (by rewrite columns_DataFrame_replace).
  assert (Hentry : ∀ cs, is_Ret (parse_entry cs) = true
                         ∨ parse_entry cs = Raise AttributeError).
  { intros [c s]. unfold parse_entry. cbn [fst snd].
    destruct (Series_str_cases s) as [[cells Hs]|Hs].
    - left. by rewrite (parse_series_text c s cells).
    - right. unfold parse_series, infer_column_type. cbn [negb].
      destruct (Series_str_cases (Series_replace "--" s)) as [[cells Hr]|Hr].
      + clear -Hs Hr. exfalso. revert cells Hr.
        induction s; cbn in *; try done. eauto.
      + by rewrite Hr. }
  pose proof (mapM_result_cases parse_entry AttributeError
                (DataFrame_replace "--" df) (λ cs _, Hentry cs)) as Hc.
  destruct (forallb _ _) eqn:Hall; [|done].
  assert (Hbad : parse_entry (col, Series_replace "--" series) = Raise AttributeError).
  { unfold parse_entry, parse_series, infer_column_type. cbn [fst snd negb].
    by rewrite (Series_str_replace_Raise _ _ _ (Series_str_replace_Raise _ _ _ Hstr)). }
  exfalso. rewrite forallb_forall in Hall.
  specialize (Hall (col, Series_replace "--" series)).
  rewrite Hbad in Hall. assert (false = true); [|done]. apply Hall.
  apply list_elem_of_In. unfold DataFrame_replace.
  apply list_elem_of_fmap. by exists (col, series).
Qed.

(** ** More on dates *)

Lemma days_in_month_le (y m : Z) : days_in_month y m ≤ 31.
Proof.
  unfold days_in_month. destruct (is_leap y);
    (destruct m as [|p|p]; [lia| |lia]);
    do 4 (try (destruct p as [p|p|]; try (cbn; lia))).
Qed.

Lemma digit_val_inj (c c' : ascii) : digit_val c = digit_val c' → c = c'.
Proof.
  unfold digit_val. intros Hv.
  rewrite <- (ascii_nat_embedding c), <- (ascii_nat_embedding c').
  f_equal. lia.
Qed.

Lemma local_era_date_inj (s1 s2 : string) :
  seven_digits s1 = true → seven_digits s2 = true →
  local_era_date s1 = local_era_date s2 → s1 = s2.
Proof.
  intros H1 H2.
  destruct (seven_digits_inv s1 H1) as (a1&a2&a3&a4&a5&a6&a7&->&Ha).
  destruct (seven_digits_inv s2 H2) as (b1&b2&b3&b4&b5&b6&b7&->&Hb).
  repeat match goal with H : Forall _ (_ :: _) |- _ => inversion H; clear H; subst end.
  repeat match goal with
         | H : is_digit ?c = true |- _ => apply digit_val_range in H
         end.
  unfold local_era_date, chars, digits_val. cbn [substring list_ascii_of_string fold_left].
  intros Heq. injection Heq as Hy Hm Hd.
  assert (digit_val a1 = digit_val b1 ∧ digit_val a2 = digit_val b2
          ∧ digit_val a3 = digit_val b3) as (?&?&?) by lia.
  assert (digit_val a4 = digit_val b4 ∧ digit_val a5 = digit_val b5) as (?&?) by lia.
  assert (digit_val a6 = digit_val b6 ∧ digit_val a7 = digit_val b7) as (?&?) by lia.
  repeat match goal with
         | H : digit_val _ = digit_val _ |- _ => apply digit_val_inj in H; subst
         end.
  reflexivity.
Qed.

(** X1: a date that [parse_taiwanese_date] returns for seven digits is the
    local-era date of the digits, a date of the calendar, with a year
    from 1911 to 2262. *)
Theorem parsed_date_is_valid (s : string) (d : date) :
  seven_digits s = true →
  parse_taiwanese_date (VStr s) = Ret (Timestamp d) →
  d = local_era_date s
  ∧ calendar_valid d = true
  ∧ 1911 ≤ year d ≤ 2262
  ∧ 1 ≤ month d ≤ 12 ∧ 1 ≤ day d ≤ 31.
Proof.
  intros H7 Hp. rewrite parse_taiwanese_date_seven_digits in Hp by done.
  destruct (calendar_valid (local_era_date s)) eqn:Hcal; [|done].
  destruct (in_Timestamp_bounds (local_era_date s)) eqn:Hb; [|done].
  cbn in Hp. injection Hp as <-. split_and!; try done.
  - destruct (seven_digits_inv s H7) as (c1&c2&c3&c4&c5&c6&c7&->&Hd).
    repeat match goal with H : Forall _ (_ :: _) |- _ => inversion H; clear H; subst end.
    repeat match goal with
           | H : is_digit ?c = true |- _ => apply digit_val_range in H
           end.
    unfold local_era_date, chars, digits_val.
    cbn [substring list_ascii_of_string fold_left year]. lia.
  - unfold in_Timestamp_bounds in Hb. apply andb_true_iff in Hb as [_ Hmax].
    unfold date_leb, Timestamp_max_date in Hmax. cbn [year month day] in Hmax.
    apply orb_true_iff in Hmax as [Hlt|Heq]; [apply Z.ltb_lt in Hlt; lia|].
    apply andb_true_iff in Heq as [Heq _]. apply Z.eqb_eq in Heq. lia.
  - unfold calendar_valid, valid_date in Hcal.
    rewrite !andb_true_iff, !Z.leb_le in Hcal. lia.
  - unfold calendar_valid, valid_date in Hcal.
    rewrite !andb_true_iff, !Z.leb_le in Hcal. lia.
  - unfold calendar_valid, valid_date in Hcal.
    rewrite !andb_true_iff, !Z.leb_le in Hcal. lia.
  - unfold calendar_valid, valid_date in Hcal.
    rewrite !andb_true_iff, !Z.leb_le in Hcal.
    pose proof (days_in_month_le (year (local_era_date s)) (month (local_era_date s))).
    lia.
Qed.

(** X2: on seven-digit strings [parse_taiwanese_date] is injective where it
    succeeds: two strings that give the same date are the same string. *)
Theorem parse_taiwanese_date_injective (s1 s2 : string) (d : date) :
  seven_digits s1 = true → seven_digits s2 = true →
  parse_taiwanese_date (VStr s1) = Ret (Timestamp d) →
  parse_taiwanese_date (VStr s2) = Ret (Timestamp d) →
  s1 = s2.
Proof.
  intros H1 H2 Hp1 Hp2.
  rewrite parse_taiwanese_date_seven_digits in Hp1, Hp2 by done.
  destruct (_ && _) in Hp1; [|done]. destruct (_ && _) in Hp2; [|done].
  apply local_era_date_inj; try done. congruence.
Qed.

(** X3: seven digits followed by a newline pass the date test of the
    column, since [$] matches before a final newline, but the value has
    length 8 and is converted to a null, [None]. *)
Theorem trailing_newline_is_date_but_null (api : TwseOpenApi) (s : string) :
  seven_digits s = true →
  infer_column_type api (ObjectSeries [Some (s +:+ String newline "")]) true = Ret "date"
  ∧ parse_taiwanese_date (VStr (s +:+ String newline "")) = Ret PyNone.
Proof.
  intros H7. destruct (seven_digits_inv s H7) as (c1&c2&c3&c4&c5&c6&c7&->&Hd).
  repeat match goal with H : Forall _ (_ :: _) |- _ => inversion H; clear H; subst end.
  change (String c1 (String c2 (String c3 (String c4 (String c5 (String c6
            (String c7 "")))))) +:+ String newline "")
    with (String c1 (String c2 (String c3 (String c4 (String c5 (String c6
            (String c7 (String newline "")))))))).
  split; [|reflexivity].
  rewrite (infer_column_type_text api (ObjectSeries _) _ eq_refl).
  assert (Hne : String.eqb (String c1 (String c2 (String c3 (String c4 (String c5
                  (String c6 (String c7 (String newline "")))))))) "--" = false).
  { apply String.eqb_neq. intros Heq. by injection Heq. }
  unfold inferred_type, looks_like_dates, Series_all, str_match. cbv zeta.
  cbn [map replace_cell]. rewrite Hne. cbn [map option_map forallb].
  assert (H7' : match_7_digits (String c1 (String c2 (String c3 (String c4 (String c5
                  (String c6 (String c7 (String newline "")))))))) = true).
  { unfold match_7_digits, chars.
    cbn [list_ascii_of_string take drop forallb length Nat.eqb].
    repeat match goal with H : is_digit _ = true |- _ => rewrite H end.
    by rewrite Ascii.eqb_refl. }
  by rewrite H7'.
Qed.

(** ** More on inference *)

(** X4: under the local-era convention [infer_column_type] raises exactly
    when the column has no text accessor, and then [AttributeError]: the
    accessor of the date test is outside every [try]. *)
Theorem infer_column_type_raises_iff (api : TwseOpenApi) (s : Series) (e : exn) :
  infer_column_type api s true = Raise e
  ↔ e = AttributeError ∧ Series_str s = Raise AttributeError.
Proof.
  destruct (Series_str_cases s) as [[cells Hs]|Hs].
  - rewrite (infer_column_type_text api s cells Hs), Hs. split; [done|].
    by intros [_ ?].
  - unfold infer_column_type. cbn [negb].
    rewrite (Series_str_replace_Raise _ _ _ Hs). cbn.
    split; [by intros [= <-]|by intros [-> _]].
Qed.

(** X5: under the ISO convention [infer_column_type] raises on a bool
    column and on a timedelta column, and then [TypeError]:
    [pd.to_datetime] refuses the dtype, and the date test catches
    [ValueError] only.  On a column of the other dtypes of this
    development (object, string, numeric, datetime, and a category over
    these) it returns a type: the date test catches the [ValueError] of a
    cell that is no date, and the text accessor of the numeric test is
    inside its [try], which catches [AttributeError]. *)
Theorem infer_column_type_iso_raises_on_bool (api : TwseOpenApi) (s : Series) :
  (∀ cells, s = BoolSeries cells → infer_column_type api s false = Raise TypeError)
  ∧ (∀ cells, s = TimedeltaSeries cells →
       infer_column_type api s false = Raise TypeError)
  ∧ (bool_or_timedelta s = false →
     infer_column_type api s false = Ret "date"
     ∨ infer_column_type api s false = Ret "numeric"
     ∨ infer_column_type api s false = Ret "categorical").
Proof.
  split_and!; [by intros cells ->|by intros cells ->|]. intros Hplain.
  assert (Hbool : refused_by_to_datetime s = false).
  { unfold refused_by_to_datetime. apply orb_false_iff. split; [|by destruct s].
    revert Hplain. induction s; cbn; try done. }
  unfold infer_column_type. cbn [negb]. unfold to_datetime.
  rewrite refused_by_to_datetime_replace, Hbool.
  pose proof (mapM_result_cases (to_datetime_cell errors_raise) ValueError
                (values (Series_replace "--" s))
                (λ v _, to_datetime_cell_cases v)) as Hc.
  destruct (forallb _ _).
  { destruct Hc as (ys & -> & _). by left. }
  rewrite Hc. cbn -[try_except].
  destruct (Series_str_cases (Series_replace "--" s)) as [[cells Hs]|Hs]; rewrite Hs.
  - cbn -[try_except]. rewrite numeric_test. cbn.
    destruct (looks_numeric cells); [right; by left|right; by right].
  - right; by right.
Qed.

(** X6: missing cells have no part in the inference: a column has the type
    of the column left when its nulls and sentinels are taken out. *)
Theorem inference_ignores_missing (api : TwseOpenApi) (cells : list (option string))
    (local_era : bool) :
  infer_column_type api (ObjectSeries cells) local_era
  = infer_column_type api
      (ObjectSeries (filter (λ c, missing_cell c = false) cells)) local_era.
Proof.
  assert (Hgen : ∀ (test : option string → bool),
            (∀ c, missing_cell c = true → test c = true) →
            forallb test (filter (λ c, missing_cell c = false) cells)
            = forallb test cells).
  { intros test Htest. induction cells as [|c cells IH]; [done|].
    destruct (missing_cell c) eqn:Hm.
    - rewrite filter_cons_False by (by rewrite Hm). cbn.
      by rewrite (Htest c Hm).
    - rewrite filter_cons_True by done. cbn. by rewrite IH. }
  assert (Hmiss : ∀ c, missing_cell c = true → replace_cell "--" c = None).
  { intros [s|]; cbn; [by intros ->|done]. }
  destruct local_era.
  - rewrite !(infer_column_type_text api (ObjectSeries _) _ eq_refl).
    unfold inferred_type, looks_like_dates, looks_numeric, Series_all,
      str_match, str_replace_commas.
    rewrite !forallb_map_eq.
    rewrite !Hgen; [done| |].
    + intros c Hc. by rewrite (Hmiss c Hc).
    + intros c Hc. by rewrite (Hmiss c Hc).
  - rewrite !(infer_column_type_iso_text api (ObjectSeries _) _ eq_refl).
    unfold inferred_type_iso, parses_as_dates, looks_numeric, str_replace_commas.
    rewrite !forallb_map_eq.
    rewrite !Hgen; [done| |].
    + intros c Hc. by rewrite (Hmiss c Hc).
    + intros c Hc. by rewrite (Hmiss c Hc).
Qed.

(** ** More on numbers *)

Lemma Qred_inject_Z (m : Z) : Qred (inject_Z m) = inject_Z m.
Proof.
  unfold Qred, inject_Z.
  pose proof (Z.ggcd_gcd m 1) as Hg.
  pose proof (Z.ggcd_correct_divisors m 1) as Hd.
  destruct (Z.ggcd m 1) as [g [aa bb]]. cbn [fst snd] in *.
  rewrite Z.gcd_1_r in Hg. subst g. destruct Hd as [Ha Hb].
  rewrite Z.mul_1_l in Ha, Hb. by subst.
Qed.

Lemma read_digits_all (cs : list ascii) (acc : Z) (n : nat) :
  forallb is_digit cs = true →
  read_digits acc n cs
  = (fold_left (λ a c, a * 10 + digit_val c) cs acc, (n + length cs)%nat, []).
Proof.
  revert acc n. induction cs as [|c cs IH]; intros acc n Hd.
  - cbn. by rewrite Nat.add_0_r.
  - cbn in Hd. apply andb_true_iff in Hd as [Hc Hd].
    rewrite read_digits_digit by done. rewrite IH by done.
    cbn. by rewrite Nat.add_succ_r.
Qed.

(** A run of digits is a decimal literal, and its number is the value of
    the digits. *)
Lemma read_sign_digit (c : ascii) (cs : list ascii) :
  is_digit c = true → read_sign (c :: cs) = (false, c :: cs).
Proof.
  intros Hc. unfold read_sign.
  destruct (Ascii.eqb_spec c "-") as [->|_]; [by vm_compute in Hc|].
  destruct (Ascii.eqb_spec c "+") as [->|_]; [by vm_compute in Hc|done].
Qed.

Lemma parse_decimal_digits (s : string) :
  all_digits s = true → s ≠ "" →
  parse_decimal s = Some (inject_Z (digits_val (chars s))).
Proof.
  unfold all_digits, parse_decimal. intros Hd Hne.
  destruct (chars s) as [|c cs] eqn:Hcs.
  { destruct s; [done|discriminate]. }
  assert (Hc : is_digit c = true) by (cbn in Hd; by apply andb_true_iff in Hd as [? _]).
  rewrite (read_sign_digit c cs Hc). unfold decimal_from. rewrite read_digits_all by done.
  cbn [length Nat.add Nat.eqb]. cbn [Z.of_nat Z.pow Z.to_pos].
  change (Z.to_pos (10 ^ 0)) with 1%positive.
  by rewrite <- (Qred_inject_Z (digits_val (c :: cs))).
Qed.

(** A run of digits is an integer literal, as long as its digits. *)
Lemma parse_integer_digits (s : string) :
  all_digits s = true → s ≠ "" →
  parse_integer s = Some (digits_val (chars s))
  ∧ integer_digits s = length (chars s).
Proof.
  unfold all_digits, parse_integer, integer_digits. intros Hd Hne.
  destruct (chars s) as [|c cs] eqn:Hcs.
  { destruct s; [done|discriminate]. }
  assert (Hc : is_digit c = true) by (cbn in Hd; by apply andb_true_iff in Hd as [? _]).
  rewrite (read_sign_digit c cs Hc). cbn [snd]. rewrite Hd.
  by rewrite read_digits_all.
Qed.

(** The value of [n] digits is below [10 ^ n]. *)
Lemma fold_digits_bounds (cs : list ascii) (acc : Z) :
  forallb is_digit cs = true → 0 ≤ acc →
  0 ≤ fold_left (λ a c, a * 10 + digit_val c) cs acc
    < (acc + 1) * 10 ^ Z.of_nat (length cs).
Proof.
  revert acc. induction cs as [|c cs IH]; intros acc Hd Hacc.
  - cbn. lia.
  - cbn [forallb] in Hd. apply andb_true_iff in Hd as [Hc Hd].
    assert (0 ≤ digit_val c ≤ 9) by (by apply digit_val_range).
    cbn [fold_left length]. rewrite Nat2Z.inj_succ, Z.pow_succ_r by lia.
    specialize (IH (acc * 10 + digit_val c) Hd ltac:(lia)).
    assert (0 < 10 ^ Z.of_nat (length cs)) by (apply Z.pow_pos_nonneg; lia).
    nia.
Qed.

Lemma digits_val_bounds (cs : list ascii) :
  forallb is_digit cs = true → 0 ≤ digits_val cs < 10 ^ Z.of_nat (length cs).
Proof.
  intros Hd. pose proof (fold_digits_bounds cs 0 Hd ltac:(lia)) as Hb.
  unfold digits_val. lia.
Qed.

Lemma to_numeric_cell_digits (s : string) (errors : errors_mode) :
  all_digits s = true → s ≠ "" →
  (length (chars s) ≤ 308)%nat → digits_val (chars s) < 2 ^ 64 →
  to_numeric_cell errors (Some s) = Ret (Some (inject_Z (digits_val (chars s)))).
Proof.
  intros Hd Hne Hlen Hmax. unfold to_numeric_cell, to_double, maybe_int, plain_decimal.
  destruct (parse_integer_digits s Hd Hne) as [-> ->].
  rewrite (parse_decimal_digits s Hd Hne).
  apply String.eqb_neq in Hne as ->.
  apply Nat.leb_le in Hlen as ->.
  cbn [on_failure mbind result_mbind result_bind].
  assert (in_integer_range (digits_val (chars s)) = true) as ->.
  { unfold in_integer_range. pose proof (digits_val_bounds (chars s) Hd).
    apply andb_true_iff. split; apply Z.leb_le; lia. }
  by destruct errors.
Qed.

Lemma remove_commas_digits (cs : list ascii) :
  forallb (λ c, is_digit c || Ascii.eqb c ",") cs = true →
  filter not_comma cs = List.filter is_digit cs.
Proof.
  induction cs as [|c cs IH]; [done|]. cbn [forallb List.filter]. intros Hall.
  apply andb_true_iff in Hall as [Hc Hall].
  destruct (is_digit c) eqn:Hd.
  - rewrite filter_cons_True by (intros ->; by vm_compute in Hd). by rewrite IH.
  - cbn in Hc. apply Ascii.eqb_eq in Hc as ->.
    rewrite filter_cons_False by (intros Hne; by apply Hne). by apply IH.
Qed.

(** X7: an integer written with thousands separators converts to the
    integer of its digits, under either error mode: the commas are removed
    wherever they stand.  The integer is one of 64 bits, which the
    conversion keeps exact, written with at most 308 digits, leading
    zeros counted: pandas' parser reads no more. *)
Theorem comma_separated_integer_value (s : string) (errors : errors_mode) :
  digits_and_commas s = true →
  digits_val (List.filter is_digit (chars s)) < 2 ^ 63 →
  (length (List.filter is_digit (chars s)) ≤ 308)%nat →
  to_numeric (str_replace_commas [Some s]) errors
  = Ret [Some (inject_Z (digits_val (List.filter is_digit (chars s))))].
Proof.
  unfold digits_and_commas. intros Hs Hmax Hlen. apply andb_true_iff in Hs as [Hall Hex].
  unfold to_numeric, str_replace_commas. cbn [map option_map mapM_result].
  assert (Hchars : chars (remove_commas s) = List.filter is_digit (chars s)).
  { rewrite chars_remove_commas. by apply remove_commas_digits. }
  rewrite to_numeric_cell_digits.
  - by rewrite Hchars.
  - unfold all_digits. rewrite Hchars. apply forallb_forall.
    intros c Hc. by apply filter_In in Hc as [_ ?].
  - intros Hempty. apply existsb_exists in Hex as (c & Hc & Hd).
    assert (Hin : In c (chars (remove_commas s))).
    { rewrite Hchars. by apply filter_In. }
    rewrite Hempty in Hin. done.
  - by rewrite Hchars.
  - rewrite Hchars. lia.
Qed.

(** ** More on [parse_data] *)

Lemma clean_column_clean (col : string) (data : list record) :
  map (replace_cell "--") (clean_column col data) = clean_column col data.
Proof.
  unfold clean_column. rewrite map_map. apply map_ext. intros c.
  apply replace_cell_idemp.
Qed.

Lemma clean_column_no_sentinel (col : string) (data : list record) :
  Some "--" ∉ clean_column col data.
Proof.
  unfold clean_column. intros Hin.
  apply list_elem_of_fmap in Hin as (c & Hc & _).
  destruct c as [s|]; [|done]. revert Hc. cbn.
  destruct (String.eqb_spec s "--") as [->|Hne]; [done|]. intros [= Hs]. by subst.
Qed.

(** The column [parse_data] returns under a name. *)
Lemma parse_data_getitem (data : list record) (col : string) :
  return_raw self = false →
  col ∈ record_columns data →
  ∃ df,
    parse_data_ (Records data) = Ret df
    ∧ getitem df col
      = Ret (convert_text (effective_type col (clean_column col data))
                          (ObjectSeries (clean_column col data))
                          (clean_column col data)).
Proof.
  intros Hraw Hcol. eexists. split; [by apply parse_data_Records|].
  by rewrite getitem_parsed.
Qed.

Lemma convert_cell_None (col_type : string) : convert_cell col_type None = VNull.
Proof.
  unfold convert_cell.
  destruct (String.eqb col_type "date" && parse_dates);
    [by destruct is_taiwanese_date|].
  by destruct (String.eqb col_type "numeric" && parse_numbers).
Qed.

Lemma record_get_missing (col : string) (r : record) :
  col ∉ map fst r → record_get col r = None.
Proof.
  unfold record_get. induction r as [|[k v] r IH]; [done|]. cbn. intros Hnot.
  destruct (String.eqb_spec k col) as [->|_]; [exfalso; apply Hnot; left|].
  apply IH. intros Hin. apply Hnot. by right.
Qed.

Lemma remove_commas_all_digits (s : string) :
  all_digits s = true → remove_commas s = s.
Proof.
  unfold all_digits, remove_commas, chars. intros Hd.
  rewrite <- (string_of_list_ascii_of_string s) at 2. f_equal.
  induction (list_ascii_of_string s) as [|c cs IH]; [done|].
  cbn in Hd. apply andb_true_iff in Hd as [Hc Hd].
  rewrite filter_cons_True by (intros ->; by vm_compute in Hc). by rewrite IH.
Qed.

Lemma eight_digits_not_seven (s : string) :
  eight_digits s = true → match_7_digits s = false ∧ s ≠ "--" ∧ s ≠ "".
Proof.
  unfold eight_digits, all_digits, chars.
  rewrite andb_true_iff, Nat.eqb_eq. intros [Hlen Hd].
  destruct s as [|c1 [|c2 [|c3 [|c4 [|c5 [|c6 [|c7 [|c8 [|? ?]]]]]]]]]; try discriminate.
  split_and!; [|done|done].
  unfold match_7_digits, chars. cbn [list_ascii_of_string take drop].
  cbn [list_ascii_of_string forallb] in Hd. rewrite !andb_true_iff in Hd.
  destruct Hd as (_&_&_&_&_&_&_&H8&_).
  destruct (Ascii.eqb_spec c8 newline) as [->|_]; [by vm_compute in H8|].
  apply andb_false_r.
Qed.

Lemma length_chars (s : string) : length (chars s) = String.length s.
Proof. unfold chars. induction s as [|c s IH]; [done|]. cbn. by rewrite IH. Qed.

Lemma eight_digits_cell (s : string) (errors : errors_mode) :
  eight_digits s = true →
  to_numeric_cell errors (Some s) = Ret (Some (inject_Z (digits_val (chars s)))).
Proof.
  intros Hs. destruct (eight_digits_not_seven s Hs) as (_ & _ & Hnon).
  unfold eight_digits in Hs. apply andb_true_iff in Hs as [Hlen Hd].
  apply Nat.eqb_eq in Hlen.
  pose proof (digits_val_bounds (chars s) Hd) as Hb.
  rewrite length_chars, Hlen in Hb.
  apply to_numeric_cell_digits; [done|done|rewrite length_chars; lia|].
  change (10 ^ Z.of_nat 8) with 100000000 in Hb.
  assert (100000000 < 2 ^ 64) by done. lia.
Qed.

(** X8: the date convention of [parse_data] has no part in the inference,
    which is always made under the local-era one.  So a column of ISO
    dates (eight digits) that is not forced is no date column, whatever
    [is_taiwanese_date]: it comes out numeric, "20241227" as the number
    20241227. *)
Theorem iso_dates_become_numbers (data : list record) (col : string) :
  return_raw self = false →
  parse_numbers = true →
  force_column_type !! col = None →
  col ∈ record_columns data →
  (∀ s, Some s ∈ clean_column col data → eight_digits s = true) →
  (∃ s, Some s ∈ clean_column col data) →
  ∃ df,
    parse_data_ (Records data) = Ret df
    ∧ getitem df col
      = Ret (NumericSeries
               (map (option_map (λ s, inject_Z (digits_val (chars s))))
                    (clean_column col data))).
Proof.
  intros Hraw Hnum Hforce Hcol H8 (s0 & Hs0).
  destruct (parse_data_getitem data col Hraw Hcol) as (df & Hdf & Hget).
  exists df. split; [done|]. rewrite Hget. f_equal.
  set (cells := clean_column col data) in *.
  assert (Hty : effective_type col cells = "numeric").
  { unfold effective_type. rewrite Hforce. cbn. unfold inferred_type. cbv zeta.
    destruct (eight_digits_not_seven s0 (H8 s0 Hs0)) as (Hno7 & Hne & _).
    rewrite (looks_like_dates_false cells s0) by done.
    unfold cells. rewrite clean_column_clean. fold cells.
    assert (looks_numeric cells = true) as ->; [|done].
    unfold looks_numeric, str_replace_commas. rewrite forallb_map_eq.
    apply forallb_forall. intros c Hc. apply list_elem_of_In in Hc.
    destruct c as [s|]; [|done]. cbn [option_map]. unfold numeric_cell_ok.
    pose proof (H8 s Hc) as Hs. destruct (eight_digits_not_seven s Hs) as (_ & _ & Hnon).
    unfold eight_digits in Hs. apply andb_true_iff in Hs as [_ Hd].
    rewrite remove_commas_all_digits by done.
    by rewrite (eight_digits_cell s errors_raise (H8 s Hc)). }
  rewrite Hty. unfold convert_text. rewrite Hnum. cbn [String.eqb Ascii.eqb Bool.eqb andb].
  f_equal. unfold str_replace_commas. rewrite map_map.
  apply map_ext_in. intros c Hc. apply list_elem_of_In in Hc.
  destruct c as [s|]; [|done]. cbn [option_map].
  pose proof (H8 s Hc) as Hs. destruct (eight_digits_not_seven s Hs) as (_ & _ & Hnon).
  unfold eight_digits in Hs. apply andb_true_iff in Hs as [_ Hd].
  rewrite remove_commas_all_digits by done.
  by rewrite (eight_digits_cell s errors_coerce (H8 s Hc)).
Qed.

(** X9: the sentinel does not survive: no value of the output is the text
    "--", whatever the type of its column. *)
Theorem parse_data_no_sentinel (data : list record) (df : DataFrame) :
  return_raw self = false →
  parse_data_ (Records data) = Ret df →
  ∀ col series, (col, series) ∈ df → VStr "--" ∉ values series.
Proof.
  intros Hraw Hdf col series Hin.
  rewrite parse_data_Records in Hdf by done. injection Hdf as <-.
  apply list_elem_of_fmap in Hin as (col' & Heq & _).
  unfold parsed_column in Heq. cbv zeta in Heq. injection Heq as <- ->.
  rewrite (values_convert_text _ _ (clean_column col data)) by done.
  intros Hv. apply list_elem_of_fmap in Hv as (c & Hc & Hcin).
  unfold convert_cell in Hc.
  destruct (String.eqb _ "date" && parse_dates).
  { destruct is_taiwanese_date; by destruct (_ : option date). }
  destruct (String.eqb _ "numeric" && parse_numbers).
  { by destruct (coerced _). }
  destruct c as [s|]; [|done]. injection Hc as <-.
  by apply (clean_column_no_sentinel col data).
Qed.

(** X10: a cell that is the sentinel, a null, or a key the record does not
    have is a null of the output at its row, whatever the type of the
    column. *)
Theorem parse_data_missing_is_null (data : list record) (df : DataFrame)
    (col : string) (series : Series) (i : nat) (r : record) :
  return_raw self = false →
  parse_data_ (Records data) = Ret df →
  (col, series) ∈ df →
  data !! i = Some r →
  col ∉ map fst r ∨ record_get col r = None ∨ record_get col r = Some "--" →
  values series !! i = Some VNull.
Proof.
  intros Hraw Hdf Hin Hi Hcell.
  rewrite parse_data_Records in Hdf by done. injection Hdf as <-.
  apply list_elem_of_fmap in Hin as (col' & Heq & _).
  unfold parsed_column in Heq. cbv zeta in Heq. injection Heq as <- ->.
  rewrite (values_convert_text _ _ (clean_column col data)) by done.
  unfold clean_column, raw_column. rewrite !list_lookup_fmap, Hi. cbn.
  assert (replace_cell "--" (record_get col r) = None) as ->.
  { destruct Hcell as [Hk|[->| ->]]; [|done|done].
    by rewrite record_get_missing. }
  by rewrite convert_cell_None.
Qed.

(** X11: a column whose type has its switch off, or whose forced type is
    none of "date", "numeric" and "categorical", comes out with dtype
    string, its text unchanged but for the sentinel. *)
Theorem disabled_type_falls_back_to_string (data : list record) (col : string) :
  return_raw self = false →
  col ∈ record_columns data →
  (effective_type col (clean_column col data) = "date" → parse_dates = false) →
  (effective_type col (clean_column col data) = "numeric" → parse_numbers = false) →
  (effective_type col (clean_column col data) = "categorical" →
   parse_categories = false) →
  ∃ df,
    parse_data_ (Records data) = Ret df
    ∧ getitem df col = Ret (StringSeries (clean_column col data)).
Proof.
  intros Hraw Hcol Hd Hn Hc.
  destruct (parse_data_getitem data col Hraw Hcol) as (df & Hdf & Hget).
  exists df. split; [done|]. rewrite Hget. f_equal. unfold convert_text.
  destruct (String.eqb_spec (effective_type col (clean_column col data)) "date")
    as [E|_]; [rewrite (Hd E)|]; cbn [andb];
  destruct (String.eqb_spec (effective_type col (clean_column col data)) "numeric")
    as [E'|_]; try rewrite (Hn E'); cbn [andb];
  destruct (String.eqb_spec (effective_type col (clean_column col data)) "categorical")
    as [E''|_]; try rewrite (Hc E''); cbn [andb]; done.
Qed.






(** X14: no records, or records without a key, give the empty frame, in
    either mode and under every switch; nothing is raised. *)
Theorem parse_data_of_nothing (data : list record) :
  (∀ r, r ∈ data → r = []) →
  parse_data_ (Records data) = Ret [].
Proof.
  intros Hempty.
  assert (Hcols : record_columns data = []).
  { unfold record_columns.
    assert (concat (map (map fst) data) = []) as ->; [|done].
    induction data as [|r data IH]; [done|]. cbn.
    rewrite (Hempty r) by left. cbn. apply IH. intros r' Hr'. apply Hempty. by right. }
  destruct (return_raw self) eqn:Hraw.
  - unfold parse_data. rewrite Hraw. cbn [pd_DataFrame].
    unfold DataFrame_of_records. by rewrite Hcols.
  - rewrite parse_data_Records by done. by rewrite Hcols.
Qed.

(** X15: [parse_data] cannot be applied to its own output once a column
    has come out numeric or datetime: the second call raises
    [AttributeError], with the same overrides or any other, since the
    inference runs for every column before the override is looked up. *)
Theorem second_pass_raises (data : list record) (df : DataFrame)
    (col : string) (series : Series) :
  return_raw self = false →
  parse_data_ (Records data) = Ret df →
  (col, series) ∈ df →
  (∃ cells, series = NumericSeries cells) ∨ (∃ cells, series = DatetimeSeries cells) →
  parse_data_ (Frame df) = Raise AttributeError.
Proof.
  intros Hraw Hdf Hin Hdtype.
  apply (parse_data_Frame_raises df col series); try done.
  - rewrite parse_data_Records in Hdf by done. injection Hdf as <-.
    rewrite columns_parsed. apply record_columns_NoDup.
  - by destruct Hdtype as [[cells ->]|[cells ->]].
Qed.

End parse_data_properties.


(** ** The fetch *)


(** X16: on status 200 the fetch forces the types of four columns of the
    endpoint, whatever their values (years, quarters and company codes
    look numeric): "年度", "季別" and "公司代號" come out with dtype
    category and "公司名稱" with dtype string. *)
Theorem fetch_forces_endpoint_types (self : TwseOpenApi) (w : World)
    (data : list record) (col : string) :
  status_code (requests_get w (base_url self +:+ "opendata/t187ap14_L")) = 200 →
  json (requests_get w (base_url self +:+ "opendata/t187ap14_L")) = Ret data →
  return_raw self = false →
  col ∈ record_columns data →
  ∃ df,
    (get_industry_eps_stat_info self w).2 = Ret (Some df)
    ∧ (col = "年度" ∨ col = "季別" ∨ col = "公司代號" →
       getitem df col = Ret (CategorySeries (ObjectSeries (clean_column col data))))
    ∧ (col = "公司名稱" →
       getitem df col = Ret (StringSeries (clean_column col data))).
Proof.
  intros H200 Hjson Hraw Hcol.
  destruct (parse_data_getitem self true true true true eps_force_column_type
              data col Hraw Hcol) as (df & Hdf & Hget).
  exists df. split_and!.
  - unfold get_industry_eps_stat_info. rewrite H200, Hjson. cbn [Z.eqb Pos.eqb snd].
    unfold parse_data_default. cbn [mbind result_mbind result_bind].
    by rewrite Hdf.
  - intros Hname. rewrite Hget.
    assert (effective_type eps_force_column_type col (clean_column col data)
            = "categorical") as ->.
    { unfold effective_type. by destruct Hname as [->|[->| ->]]. }
    reflexivity.
  - intros ->. rewrite Hget.
    assert (effective_type eps_force_column_type "公司名稱"
              (clean_column "公司名稱" data) = "string") as -> by done.
    reflexivity.
Qed.

End Properties.

(** * Instances of the claims

    Each theorem with a hypothesis is applied at a concrete input, and
    each amended claim has the input on which its first wording fails.
    The runtime is [strict_runtime]; none of these inputs reaches it. *)

Ltac cell_cases H :=
  repeat (apply elem_of_cons in H as [H|H]; [injection H as ->|]);
  try (by apply elem_of_nil in H).

(** C1 at the column ["1131227", "--"]. *)
Lemma local_era_column_is_date_witness :
  (∀ s, Some s ∈ [Some "1131227"; Some "--"] → s = "--" ∨ valid_local_era_date s = true)
  ∧ @infer_column_type strict_runtime TwseOpenApi_default
      (ObjectSeries [Some "1131227"; Some "--"]) true = Ret "date"
  ∧ @parse_taiwanese_date strict_runtime (VStr "1131227")
    = Ret (Timestamp (mkdate 2024 12 27)).
Proof.
  assert (Hc : ∀ s, Some s ∈ [Some "1131227"; Some "--"]
                    → s = "--" ∨ valid_local_era_date s = true).
  { intros s Hs. cell_cases Hs; [by right|by left]. }
  split; [exact Hc|].
  destruct (@local_era_column_is_date strict_runtime TwseOpenApi_default _ Hc)
    as (Hty & Hconv & _).
  split; [exact Hty|].
  apply Hconv; [left|reflexivity|reflexivity].
Defined.

(** C1 as first worded fails at "3520101": a valid local-era date, the
    first of January 2263, that the conversion turns into a null, [NaT],
    since a [Timestamp] ends in 2262. *)
Lemma local_era_date_past_Timestamp_max :
  valid_local_era_date "3520101" = true
  ∧ local_era_date "3520101" = mkdate 2263 1 1
  ∧ @infer_column_type strict_runtime TwseOpenApi_default
      (ObjectSeries [Some "3520101"]) true = Ret "date"
  ∧ @parse_taiwanese_date strict_runtime (VStr "3520101") = Ret NaT.
Proof. by vm_compute. Qed.

(** C2 at the column ["100", "--", "200"]. *)
Lemma numeric_column_is_numeric_witness :
  (∀ s, Some s ∈ [Some "100"; Some "--"; Some "200"]
        → s = "--" ∨ (numeric_string s = true ∧ within_numeric_range s = true))
  ∧ @infer_column_type strict_runtime TwseOpenApi_default
      (ObjectSeries [Some "100"; Some "--"; Some "200"]) true = Ret "numeric".
Proof.
  assert (Hc : ∀ s, Some s ∈ [Some "100"; Some "--"; Some "200"]
                    → s = "--" ∨ (numeric_string s = true
                                  ∧ within_numeric_range s = true)).
  { intros s Hs. cell_cases Hs; [by right|by left|by right]. }
  split; [exact Hc|].
  refine (proj1 (@numeric_column_is_numeric strict_runtime TwseOpenApi_default _ Hc _)).
  exists "100". split_and!; [left|done|reflexivity].
Defined.

(** C2 as first worded fails at the column ["1234567", "--"]: numeric
    strings and the sentinel, yet the date test comes first and takes it. *)
Lemma seven_digit_numbers_are_dates :
  numeric_string "1234567" = true
  ∧ @infer_column_type strict_runtime TwseOpenApi_default
      (ObjectSeries [Some "1234567"; Some "--"]) true = Ret "date".
Proof. by vm_compute. Qed.

(** And at 2^64, a numeric string that no 64-bit integer holds:
    [pd.to_numeric] raises, the numeric test falls through, and the column
    is categorical, whatever the runtime.  One less is numeric. *)
Lemma integer_out_of_range_is_categorical (H : Runtime) :
  numeric_string "18446744073709551616" = true
  ∧ @infer_column_type H TwseOpenApi_default
      (ObjectSeries [Some "18446744073709551616"]) true = Ret "categorical"
  ∧ @infer_column_type H TwseOpenApi_default
      (ObjectSeries [Some "18446744073709551615"]) true = Ret "numeric".
Proof. by vm_compute. Qed.

(** C9 at the column ["1139999"]: month 99, day 99. *)
Lemma seven_digit_column_is_date_witness :
  @infer_column_type strict_runtime TwseOpenApi_default
     (ObjectSeries [Some "1139999"]) true = Ret "date"
  ∧ @parse_taiwanese_date strict_runtime (VStr "1139999") = Ret NaT.
Proof.
  assert (Hc : ∀ s, Some s ∈ [Some "1139999"] → s = "--" ∨ seven_digits s = true).
  { intros s Hs. cell_cases Hs. by right. }
  destruct (@seven_digit_column_is_date strict_runtime TwseOpenApi_default _ Hc)
    as (Hty & Hconv).
  split; [exact Hty|].
  apply Hconv; [left|reflexivity|reflexivity].
Defined.

(** C5 at a string that is too short. *)
Lemma parse_taiwanese_date_total_witness :
  @parse_taiwanese_date strict_runtime (VStr "113") = Ret PyNone.
Proof.
  destruct (@parse_taiwanese_date_total strict_runtime (VStr "113")) as (_ & _ & Hlen & _).
  by apply (Hlen "113").
Defined.

(** C3 at a numeric-looking column forced to "categorical". *)
Lemma forced_type_overrides_inference_witness :
  ∃ df series,
    @parse_data strict_runtime TwseOpenApi_default true true true true
      {[ "a" := "categorical" ]} (Records [[("a", Some "100")]]) = Ret df
    ∧ getitem df "a" = Ret series
    ∧ @convert_series strict_runtime true true true true "categorical"
        (ObjectSeries (clean_column "a" [[("a", Some "100")]])) = Ret series.
Proof.
  refine (proj1 (@forced_type_overrides_inference strict_runtime TwseOpenApi_default
                   true true true true {[ "a" := "categorical" ]}
                   [[("a", Some "100")]] "a" "categorical" _ _ _)).
  - reflexivity.
  - reflexivity.
  - vm_compute. left.
Defined.

(** C4 at two records of two columns. *)
Lemma parse_data_row_alignment_witness :
  ∃ df,
    @parse_data strict_runtime TwseOpenApi_default true true true true ∅
      (Records [[("d", Some "1131227"); ("n", Some "1,234")];
                [("d", Some "1131228"); ("n", Some "--")]]) = Ret df
    ∧ columns df = ["d"; "n"].
Proof.
  destruct (@parse_data_row_alignment strict_runtime TwseOpenApi_default
              true true true true ∅
              [[("d", Some "1131227"); ("n", Some "1,234")];
               [("d", Some "1131228"); ("n", Some "--")]] eq_refl)
    as (df & Hdf & Hcols & _).
  exists df. split; [exact Hdf|]. rewrite Hcols. reflexivity.
Defined.

(** C10 at a record with a sentinel and an override: nothing is replaced,
    nothing converted. *)
Lemma return_raw_is_verbatim_witness :
  @parse_data strict_runtime {| base_url := ""; return_raw := true |}
    true true true true {[ "n" := "numeric" ]}
    (Records [[("n", Some "--")]; [("n", Some "1,234")]])
  = Ret [("n", ObjectSeries [Some "--"; Some "1,234"])].
Proof.
  refine (proj1 (@return_raw_is_verbatim strict_runtime
                   {| base_url := ""; return_raw := true |}
                   true true true true {[ "n" := "numeric" ]}
                   [[("n", Some "--")]; [("n", Some "1,234")]] eq_refl)).
Defined.

(** C7 at a table of one categorical and one string column. *)
Lemma parse_data_idempotent_on_text_witness :
  @parse_data strict_runtime TwseOpenApi_default true true true true
    {[ "name" := "string" ]}
    (Frame [("kind", CategorySeries (ObjectSeries [Some "x"; None]));
            ("name", StringSeries [Some "y"; Some "z"])])
  = Ret [("kind", CategorySeries (ObjectSeries [Some "x"; None]));
         ("name", StringSeries [Some "y"; Some "z"])].
Proof.
  apply (@parse_data_idempotent_on_text strict_runtime TwseOpenApi_default
           true true true true {[ "name" := "string" ]}
           [[("kind", Some "x"); ("name", Some "y")];
            [("kind", Some "--"); ("name", Some "z")]]).
  - reflexivity.
  - right. intros col series Hin.
    repeat (apply elem_of_cons in Hin as [Hin|Hin]; [by injection Hin as -> ->|]).
    by apply elem_of_nil in Hin.
Defined.

(** C7 as first worded fails at the record {"a": "100"}: the first pass
    makes the column numeric, and the second pass does not return that
    table. *)
Lemma parse_data_twice_raises :
  @parse_data_default strict_runtime TwseOpenApi_default
    (Records [[("a", Some "100")]]) ∅
  = Ret [("a", NumericSeries [Some 100%Q])]
  ∧ @parse_data_default strict_runtime TwseOpenApi_default
      (Frame [("a", NumericSeries [Some 100%Q])]) ∅
    = Raise AttributeError.
Proof. by vm_compute. Qed.

(** A date column none of whose values is a date of the calendar comes
    out a datetime column of [NaT], and the second pass does not return
    it either. *)
Lemma invalid_dates_make_a_datetime_column :
  @parse_data_default strict_runtime TwseOpenApi_default
    (Records [[("d", Some "1139999")]]) ∅
  = Ret [("d", DatetimeSeries [None])]
  ∧ @parse_data_default strict_runtime TwseOpenApi_default
      (Frame [("d", DatetimeSeries [None])]) ∅
    = Raise AttributeError.
Proof. by vm_compute. Qed.

(** * Instances of the further properties *)

(** X1 at "1131227", the 27th of December 2024. *)
Lemma parsed_date_is_valid_witness :
  mkdate 2024 12 27 = local_era_date "1131227"
  ∧ calendar_valid (mkdate 2024 12 27) = true
  ∧ 1911 ≤ year (mkdate 2024 12 27) ≤ 2262
  ∧ 1 ≤ month (mkdate 2024 12 27) ≤ 12 ∧ 1 ≤ day (mkdate 2024 12 27) ≤ 31.
Proof.
  exact (@parsed_date_is_valid strict_runtime "1131227" (mkdate 2024 12 27)
           eq_refl eq_refl).
Defined.

(** X2 at "1131227". *)
Lemma parse_taiwanese_date_injective_witness :
  @parse_taiwanese_date strict_runtime (VStr "1131227")
  = Ret (Timestamp (mkdate 2024 12 27))
  ∧ "1131227" = "1131227".
Proof.
  split; [reflexivity|].
  exact (@parse_taiwanese_date_injective strict_runtime "1131227" "1131227"
           (mkdate 2024 12 27) eq_refl eq_refl eq_refl eq_refl).
Defined.

(** X3 at "1131227" followed by a newline. *)
Lemma trailing_newline_is_date_but_null_witness :
  @infer_column_type strict_runtime TwseOpenApi_default
    (ObjectSeries [Some ("1131227" +:+ String newline "")]) true = Ret "date"
  ∧ @parse_taiwanese_date strict_runtime (VStr ("1131227" +:+ String newline ""))
    = Ret PyNone.
Proof.
  exact (@trailing_newline_is_date_but_null strict_runtime TwseOpenApi_default
           "1131227" eq_refl).
Defined.

(** X5 at a bool column, a timedelta column and a numeric column. *)
Lemma infer_column_type_iso_raises_on_bool_witness :
  @infer_column_type strict_runtime TwseOpenApi_default (BoolSeries [true; false]) false
  = Raise TypeError
  ∧ @infer_column_type strict_runtime TwseOpenApi_default
      (TimedeltaSeries [Some 1; None]) false
    = Raise TypeError
  ∧ (@infer_column_type strict_runtime TwseOpenApi_default
       (NumericSeries [Some 1%Q]) false = Ret "date"
     ∨ @infer_column_type strict_runtime TwseOpenApi_default
         (NumericSeries [Some 1%Q]) false = Ret "numeric"
     ∨ @infer_column_type strict_runtime TwseOpenApi_default
         (NumericSeries [Some 1%Q]) false = Ret "categorical").
Proof.
  split_and!.
  - exact (proj1 (@infer_column_type_iso_raises_on_bool strict_runtime
                    TwseOpenApi_default (BoolSeries [true; false])) _ eq_refl).
  - exact (proj1 (proj2 (@infer_column_type_iso_raises_on_bool strict_runtime
                           TwseOpenApi_default (TimedeltaSeries [Some 1; None])))
             _ eq_refl).
  - exact (proj2 (proj2 (@infer_column_type_iso_raises_on_bool strict_runtime
                           TwseOpenApi_default (NumericSeries [Some 1%Q]))) eq_refl).
Defined.

(** X7 at "1,234,567". *)
Lemma comma_separated_integer_value_witness :
  @to_numeric strict_runtime (str_replace_commas [Some "1,234,567"]) errors_raise
  = Ret [Some (inject_Z 1234567)].
Proof.
  apply (@comma_separated_integer_value strict_runtime "1,234,567" errors_raise
           eq_refl eq_refl).
  vm_compute. lia.
Defined.

(** X7 needs its bound on the digits: a 1 after 400 zeros is an integer
    below 2^63, but pandas' parser counts the zeros and fails on it; here
    it is left to the runtime, and the strict one rejects it. *)
Lemma long_digit_run_is_rejected :
  let s := string_of_list_ascii (replicate 400 "0"%char ++ ["1"%char]) in
  digits_and_commas s = true
  ∧ digits_val (List.filter is_digit (chars s)) = 1
  ∧ @to_numeric strict_runtime (str_replace_commas [Some s]) errors_raise
    = Raise ValueError.
Proof. by vm_compute. Qed.

(** X8 at one ISO date, with the ISO convention asked for. *)
Lemma iso_dates_become_numbers_witness :
  ∃ df,
    @parse_data strict_runtime TwseOpenApi_default true true true false ∅
      (Records [[("d", Some "20241227")]]) = Ret df
    ∧ getitem df "d" = Ret (NumericSeries [Some (inject_Z 20241227)]).
Proof.
  assert (H8 : ∀ s, Some s ∈ clean_column "d" [[("d", Some "20241227")]]
                    → eight_digits s = true).
  { intros s Hs. change (Some s ∈ [Some "20241227"]) in Hs. cell_cases Hs. reflexivity. }
  assert (Hex : ∃ s, Some s ∈ clean_column "d" [[("d", Some "20241227")]]).
  { exists "20241227". vm_compute. left. }
  assert (Hcol : "d" ∈ record_columns [[("d", Some "20241227")]]).
  { vm_compute. left. }
  destruct (@iso_dates_become_numbers strict_runtime TwseOpenApi_default
              true true true false ∅ [[("d", Some "20241227")]] "d"
              eq_refl eq_refl (lookup_empty "d") Hcol H8 Hex) as (df & Hdf & Hget).
  exists df. split; [exact Hdf|exact Hget].
Defined.

(** X9 at a record with a sentinel. *)
Lemma parse_data_no_sentinel_witness :
  ∃ df,
    @parse_data strict_runtime TwseOpenApi_default true true true true ∅
      (Records [[("a", Some "--"); ("b", Some "x")]]) = Ret df
    ∧ ∀ col series, (col, series) ∈ df → VStr "--" ∉ values series.
Proof.
  assert (Hdf : @parse_data strict_runtime TwseOpenApi_default true true true true ∅
                  (Records [[("a", Some "--"); ("b", Some "x")]])
                = Ret [("a", ObjectSeries [None]);
                       ("b", CategorySeries (ObjectSeries [Some "x"]))]).
  { by vm_compute. }
  eexists. split; [exact Hdf|].
  exact (@parse_data_no_sentinel strict_runtime TwseOpenApi_default
           true true true true ∅ _ _ eq_refl Hdf).
Defined.

(** X10 at a second record that lacks the key "a". *)
Lemma parse_data_missing_is_null_witness :
  ∃ df series,
    @parse_data strict_runtime TwseOpenApi_default true true true true ∅
      (Records [[("a", Some "1"); ("b", Some "x")]; [("b", Some "y")]]) = Ret df
    ∧ (("a", series) ∈ df)
    ∧ values series !! 1%nat = Some VNull.
Proof.
  assert (Hdf : @parse_data strict_runtime TwseOpenApi_default true true true true ∅
                  (Records [[("a", Some "1"); ("b", Some "x")]; [("b", Some "y")]])
                = Ret [("a", NumericSeries [Some 1%Q; None]);
                       ("b", CategorySeries (ObjectSeries [Some "x"; Some "y"]))]).
  { by vm_compute. }
  assert (Hin : ("a", NumericSeries [Some 1%Q; None])
                ∈ [("a", NumericSeries [Some 1%Q; None]);
                   ("b", CategorySeries (ObjectSeries [Some "x"; Some "y"]))]).
  { left. }
  assert (Hkey : "a" ∉ map fst [("b", Some "y")]).
  { cbn. intros Hk. apply list_elem_of_singleton in Hk. discriminate Hk. }
  eexists _, _. split_and!; [exact Hdf|exact Hin|].
  exact (@parse_data_missing_is_null strict_runtime TwseOpenApi_default
           true true true true ∅ _ _ "a" _ 1%nat [("b", Some "y")]
           eq_refl Hdf Hin eq_refl (or_introl Hkey)).
Defined.

(** X11 at a numeric column with [parse_numbers] off. *)
Lemma disabled_type_falls_back_to_string_witness :
  ∃ df,
    @parse_data strict_runtime TwseOpenApi_default true false true true ∅
      (Records [[("n", Some "100")]]) = Ret df
    ∧ getitem df "n" = Ret (StringSeries [Some "100"]).
Proof.
  assert (Hcol : "n" ∈ record_columns [[("n", Some "100")]]).
  { vm_compute. left. }
  destruct (@disabled_type_falls_back_to_string strict_runtime TwseOpenApi_default
              true false true true ∅ [[("n", Some "100")]] "n" eq_refl Hcol)
    as (df & Hdf & Hget).
  - intros E. vm_compute in E. discriminate E.
  - intros _. reflexivity.
  - intros E. vm_compute in E. discriminate E.
  - exists df. split; [exact Hdf|exact Hget].
Defined.



(** X14 at two records without a key. *)
Lemma parse_data_of_nothing_witness :
  @parse_data strict_runtime TwseOpenApi_default true true true true ∅
    (Records [[]; []]) = Ret [].
Proof.
  apply (@parse_data_of_nothing strict_runtime TwseOpenApi_default
           true true true true ∅ [[]; []]).
  intros r Hr.
  repeat (apply elem_of_cons in Hr as [->|Hr]; [reflexivity|]).
  by apply elem_of_nil in Hr.
Defined.

(** X15 at the record {"a": "100"}. *)
Lemma second_pass_raises_witness :
  @parse_data strict_runtime TwseOpenApi_default true true true true ∅
    (Frame [("a", NumericSeries [Some 100%Q])]) = Raise AttributeError.
Proof.
  assert (Hdf : @parse_data strict_runtime TwseOpenApi_default true true true true ∅
                  (Records [[("a", Some "100")]])
                = Ret [("a", NumericSeries [Some 100%Q])]).
  { by vm_compute. }
  assert (Hin : ("a", NumericSeries [Some 100%Q]) ∈ [("a", NumericSeries [Some 100%Q])]).
  { left. }
  exact (@second_pass_raises strict_runtime TwseOpenApi_default true true true true ∅
           _ _ "a" _ eq_refl Hdf Hin (or_introl (ex_intro _ _ eq_refl))).
Defined.

(** X16 at a server that answers 200 with one record: the year "113"
    looks numeric and comes out a category. *)
Lemma fetch_forces_endpoint_types_witness :
  ∃ df,
    (@get_industry_eps_stat_info strict_runtime TwseOpenApi_default
       {| requests_get := λ _, {| status_code := 200;
                                  json := Ret [[("年度", Some "113");
                                                ("公司名稱", Some "台積電")]] |};
          stdout := []; requests_sent := [] |}).2 = Ret (Some df)
    ∧ getitem df "年度" = Ret (CategorySeries (ObjectSeries [Some "113"])).
Proof.
  assert (Hcol : "年度" ∈ record_columns [[("年度", Some "113");
                                           ("公司名稱", Some "台積電")]]).
  { vm_compute. left. }
  destruct (@fetch_forces_endpoint_types strict_runtime TwseOpenApi_default
              {| requests_get := λ _, {| status_code := 200;
                                         json := Ret [[("年度", Some "113");
                                                       ("公司名稱", Some "台積電")]] |};
                 stdout := []; requests_sent := [] |}
              _ "年度" eq_refl eq_refl eq_refl Hcol) as (df & Hdf & Hcat & _).
  exists df. split; [exact Hdf|exact (Hcat (or_introl eq_refl))].
Defined.
